(** * zapcli.cli: the command layer of ZAP CLI

    A shallow embedding of [src/zapcli/cli.py].  Every command of the
    module is a computation in a small state-and-exception monad: the
    state is the process (its environment, the console configuration and
    the chronological log of what the command did), and an exception is a
    Python exception, [sys.exit] included.

    The collaborators that [cli.py] imports but does not define
    ([ZAPHelper], [helpers], [console], [click]) are either parameters of
    the commands or small models whose doc comment says so. *)

From Stdlib Require Import Ascii.
From stdpp Require Import base numbers strings list option gmap.

Local Open Scope Z_scope.
Local Open Scope string_scope.
Local Open Scope list_scope.

(** ** Data *)

(** Modelled from the spec: an alert is a finding with a severity level;
    [cli.py] receives alerts from [ZAPHelper.alerts], counts them and hands
    them to the reporter, and never looks inside. *)
Record alert := Alert { alert_name : string; alert_risk : string }.

(** Python exceptions that can travel through the commands. *)
Inductive exn :=
| ZAPError (msg : string)        (* zapcli.exceptions.ZAPError *)
| SystemExit (code : Z)          (* raised by sys.exit *)
| BadParameter (msg : string)    (* click.BadParameter, from a callback *)
| Exception (msg : string).      (* anything else *)

(** The methods of [ZAPHelper] that [cli.py] calls, with their arguments. *)
Inductive call :=
| Start (options : option string)
| Shutdown
| IsRunning
| WaitForZap (timeout : Z)
| OpenUrl (url : string)
| RunSpider (url : string) (context_name user_name : option string)
| RunAjaxSpider (url : string)
| RunActiveScan (url : string) (recursive : bool)
                (context_name user_name : option string)
| SetEnabledScanners (scanners : list string)
| ExcludeFromAll (pattern : string)
| Alerts (alert_level : string)
| HtmlReport (output : option string)
| MdReport (output : option string)
| XmlReport (output : option string).

#[global] Instance call_eq_dec : EqDecision call.
Proof. solve_decision. Defined.

Inductive console_level := INFO | ERROR.

(** What a command did, in the order it did it. *)
Inductive event :=
| Remote (c : call) (raised : option exn)
| Console (lvl : console_level) (msg : string)
| Report (alerts : list alert) (output_format : string).

(** The process a command runs in: [os.environ], the two settings of the
    [console] logger that [cli] writes, and the log. *)
Record process := Process {
  environ : gmap string string;
  colorize : bool;
  level : string;
  log : list event
}.

(** The [ZAPHelper] instance held in [ctx.obj].  Its class is not part of
    [cli.py]; a command only sees whether a method call raises and, for
    [is_running] and [alerts], what it returns.  Both may depend on the
    calls made so far. *)
Record ZAPHelper := {
  raises : list call → call → option exn;
  running : list call → bool;
  found : list call → string → list alert
}.

(** ** The monad *)

Inductive outcome (A : Type) :=
| Return (a : A)
| Raise (e : exn).
Arguments Return {A} a.
Arguments Raise {A} e.

Definition M (A : Type) : Type := process → outcome A * process.

#[global] Instance M_ret : MRet M := λ A a s, (Return a, s).

#[global] Instance M_bind : MBind M := λ A B f m s,
  match m s with
  | (Return a, s') => f a s'
  | (Raise e, s') => (Raise e, s')
  end.

Definition raise {A} (e : exn) : M A := λ s, (Raise e, s).

Definition emit (ev : event) : M unit := λ s,
  (Return (),
   Process (environ s) (colorize s) (level s) (log s ++ [ev])).

(** The calls recorded in a log, oldest first. *)
Definition calls (l : list event) : list call :=
  omap (λ ev, match ev with Remote c _ => Some c | _ => None end) l.

(** Python truthiness, as used by [if x:] and [not x]. *)
Class Truthy (A : Type) := truthy : A → bool.
#[global] Instance truthy_bool : Truthy bool := λ b, b.
#[global] Instance truthy_string : Truthy string :=
  λ s, match s with EmptyString => false | _ => true end.
#[global] Instance truthy_list {A} : Truthy (list A) :=
  λ l, match l with [] => false | _ => true end.
#[global] Instance truthy_option {A} `{Truthy A} : Truthy (option A) :=
  λ o, match o with None => false | Some a => truthy a end.

(** ** Collaborators *)

Module sys.
(** [sys.exit(code)] raises [SystemExit]. *)
Definition exit {A} (code : Z) : M A := raise (SystemExit code).
End sys.

Module os.
Definition getenv (name : string) : M (option string) :=
  λ s, (Return (environ s !! name), s).

(** [os.environ[name] = value] *)
Definition setenv (name value : string) : M unit := λ s,
  (Return (),
   Process (<[name := value]> (environ s)) (colorize s) (level s) (log s)).
End os.

Module console.
Definition info (msg : string) : M unit := emit (Console INFO msg).
Definition error (msg : string) : M unit := emit (Console ERROR msg).

Definition set_colorize (b : bool) : M unit := λ s,
  (Return (), Process (environ s) b (level s) (log s)).

Definition setLevel (lvl : string) : M unit := λ s,
  (Return (), Process (environ s) (colorize s) lvl (log s)).
End console.

(** Method calls on the helper: the call is logged together with the
    exception it raised, if any. *)
Module Zap.
Definition invoke (zap_helper : ZAPHelper) (c : call) : M unit := λ s,
  let r := raises zap_helper (calls (log s)) c in
  (match r with Some e => Raise e | None => Return () end,
   Process (environ s) (colorize s) (level s) (log s ++ [Remote c r])).

Definition start zh options := invoke zh (Start options).
Definition shutdown zh := invoke zh Shutdown.
Definition wait_for_zap zh timeout := invoke zh (WaitForZap timeout).
Definition open_url zh url := invoke zh (OpenUrl url).
Definition run_spider zh url context_name user_name :=
  invoke zh (RunSpider url context_name user_name).
Definition run_ajax_spider zh url := invoke zh (RunAjaxSpider url).
Definition run_active_scan zh url recursive context_name user_name :=
  invoke zh (RunActiveScan url recursive context_name user_name).
Definition set_enabled_scanners zh scanners :=
  invoke zh (SetEnabledScanners scanners).
Definition exclude_from_all zh pattern := invoke zh (ExcludeFromAll pattern).
Definition html_report zh output := invoke zh (HtmlReport output).
Definition md_report zh output := invoke zh (MdReport output).
Definition xml_report zh output := invoke zh (XmlReport output).

Definition is_running (zh : ZAPHelper) : M bool := λ s,
  match invoke zh IsRunning s with
  | (Return _, s') => (Return (running zh (calls (log s))), s')
  | (Raise e, s') => (Raise e, s')
  end.

Definition alerts (zh : ZAPHelper) (alert_level : string)
  : M (list alert) := λ s,
  match invoke zh (Alerts alert_level) s with
  | (Return _, s') => (Return (found zh (calls (log s)) alert_level), s')
  | (Raise e, s') => (Raise e, s')
  end.
End Zap.

(** What a context manager does with an exception that leaves its
    [with] block: [None] suppresses it, [Some e'] lets [e'] propagate.
    What the context manager prints on the way is not modelled: the log
    holds no event for it, and no statement below says that a handler
    printed or did not print. *)
Definition handler := exn → option exn.

Module helpers.
(** [with helpers.zap_error_handler(): body].  The context manager is
    defined outside [cli.py], so the commands take its reaction to an
    exception as a parameter. *)
Definition zap_error_handler (h : handler) (body : M unit) : M unit :=
  λ s,
  match body s with
  | (Return _, s') => (Return (), s')
  | (Raise e, s') =>
      match h e with
      | None => (Return (), s')
      | Some e' => (Raise e', s')
      end
  end.

(** Modelled from the spec: [helpers.report_alerts] is not part of
    [cli.py].  It renders the alert set it is given in the chosen
    format; the log records both. *)
Definition report_alerts (alerts : list alert) (output_format : string)
  : M unit := emit (Report alerts output_format).

(** The pieces of [value] between occurrences of [sep]. *)
Fixpoint split (sep : Ascii.ascii) (value : string) : list string :=
  match value with
  | EmptyString => [EmptyString]
  | String a rest =>
      if Ascii.eqb a sep then EmptyString :: split sep rest
      else match split sep rest with
           | tok :: toks => String a tok :: toks
           | [] => [String a EmptyString]
           end
  end.

Section callbacks.
(** Whether [re.compile] accepts a pattern. *)
Variable compiles : string → bool.
(** The scanner IDs one token stands for: a literal ID, the members of
    a group of [ZAPHelper.scanner_group_map], every known ID for
    [all], and none for anything else. *)
Variable resolve : string → list string.

(** Modelled from the spec: [helpers.validate_regex], the callback of
    the exclusion pattern, is not part of [cli.py].  An exclusion
    pattern is a validated regular expression string; a pattern with
    invalid syntax is refused. *)
Definition validate_regex (value : option string)
  : M (option string) :=
  match value with
  | None => mret None
  | Some pattern =>
      if compiles pattern then mret (Some pattern)
      else raise (BadParameter ("Invalid regex " +:+ pattern))
  end.

(** Modelled from the spec: [helpers.validate_scanner_list], the
    callback of [--scanners], is not part of [cli.py].  The value is a
    comma separated list of tokens; each is resolved to the IDs it
    stands for, and a token that resolves to nothing is refused. *)
Definition validate_scanner_list (value : option string)
  : M (option (list string)) :=
  match value with
  | None => mret None
  | Some v =>
      match filter (λ tok, resolve tok = []) (split ","%char v) with
      | [] => mret (Some (concat (resolve <$> split ","%char v)))
      | tok :: _ => raise (BadParameter ("Invalid scanner " +:+ tok))
      end
  end.
End callbacks.
End helpers.

(** Modelled from the spec: the handler the commands are run with, which is
    not part of [cli.py].  A remote-operation error is surfaced as a non-zero
    process exit with status [code]; nothing else is touched and nothing is
    swallowed. *)
Definition exit_on_zap_error (code : Z) : handler := λ e,
  match e with
  | ZAPError _ => Some (SystemExit code)
  | _ => Some e
  end.

(** ** Commands *)

(** The options of the group as click hands them to [cli].
    [global_soft_fail] is the value click resolved for [--soft-fail], from
    the flag or, without the flag, from the [SOFT_FAIL] variable (line 37). *)
Record cli_params := {
  boring : bool;
  verbose : bool;
  global_soft_fail : bool
}.

(** [cli], lines 39-50.  The connection settings only reach the
    constructor of the helper, which is the [ZAPHelper] the commands are
    given. *)
Definition cli (p : cli_params) : M unit :=
  console.set_colorize (negb (boring p));;
  (if verbose p then console.setLevel "DEBUG" else console.setLevel "INFO");;
  (if global_soft_fail p then os.setenv "SOFT_FAIL" "true" else mret ()).

Definition start_zap_daemon (h : handler) (zap_helper : ZAPHelper)
    (start_options : option string) : M unit :=
  console.info "Starting ZAP daemon";;
  helpers.zap_error_handler h (Zap.start zap_helper start_options).

Definition shutdown_zap_daemon (h : handler) (zap_helper : ZAPHelper)
    : M unit :=
  console.info "Shutting down ZAP daemon";;
  helpers.zap_error_handler h (Zap.shutdown zap_helper).

Definition check_status (h : handler) (zap_helper : ZAPHelper)
    (timeout : option Z) : M unit :=
  helpers.zap_error_handler h (
    up ← Zap.is_running zap_helper;
    if (up : bool) then console.info "ZAP is running"
    else match timeout with
         | Some t =>
             Zap.wait_for_zap zap_helper t;;
             console.info "ZAP is running"
         | None =>
             console.error "ZAP is not running";;
             sys.exit 2
         end).

Definition open_url (zap_helper : ZAPHelper) (url : string) : M unit :=
  console.info ("Accessing URL " +:+ url);;
  Zap.open_url zap_helper url.

Definition spider_url (h : handler) (zap_helper : ZAPHelper) (url : string)
    (context_name user_name : option string) : M unit :=
  console.info "Running spider...";;
  helpers.zap_error_handler h
    (Zap.run_spider zap_helper url context_name user_name).

Definition ajax_spider_url (zap_helper : ZAPHelper) (url : string)
    : M unit :=
  console.info "Running AJAX Spider...";;
  Zap.run_ajax_spider zap_helper url.

Definition active_scan (h : handler) (zap_helper : ZAPHelper) (url : string)
    (scanners : option (list string)) (recursive : bool)
    (context_name user_name : option string) (soft_fail : bool) : M unit :=
  console.info "Running an active scan...";;
  helpers.zap_error_handler h (
    (if truthy scanners
     then Zap.set_enabled_scanners zap_helper (default [] scanners)
     else mret ());;
    Zap.run_active_scan zap_helper url recursive context_name user_name).

Definition show_alerts (zap_helper : ZAPHelper) (alert_level : string)
    (output_format : string) (exit_code : bool) : M unit :=
  alerts ← Zap.alerts zap_helper alert_level;
  helpers.report_alerts alerts output_format;;
  if exit_code then
    let code := if bool_decide (0 < length alerts)%nat then 1 else 0 in
    sys.exit code
  else mret ().

(** The keyword arguments of [quick_scan], after click has resolved them. *)
Record options := {
  self_contained : bool;
  scanners : option (list string);
  spider : bool;
  ajax_spider : bool;
  recursive : bool;
  alert_level : string;
  exclude : option string;
  start_options : option string;
  output_format : string;
  context_name : option string;
  user_name : option string;
  soft_fail : bool
}.

(** [quick_scan], lines 210-261.  The environment is read before the
    condition of line 256 is evaluated; [os.getenv] has no effect, so the
    short-circuit of [and] makes no difference. *)
Definition quick_scan (h : handler) (zap_helper : ZAPHelper) (url : string)
    (options : options) : M unit :=
  (if self_contained options then
     console.info "Starting ZAP daemon";;
     helpers.zap_error_handler h
       (Zap.start zap_helper (start_options options))
   else mret ());;
  console.info ("Running a quick scan for " +:+ url);;
  helpers.zap_error_handler h (
    (if truthy (scanners options)
     then Zap.set_enabled_scanners zap_helper (default [] (scanners options))
     else mret ());;
    (if truthy (exclude options)
     then Zap.exclude_from_all zap_helper (default "" (exclude options))
     else mret ());;
    Zap.open_url zap_helper url;;
    (if spider options
     then Zap.run_spider zap_helper url
            (context_name options) (user_name options)
     else mret ());;
    (if ajax_spider options
     then Zap.run_ajax_spider zap_helper url
     else mret ());;
    Zap.run_active_scan zap_helper url (recursive options)
      (context_name options) (user_name options));;
  alerts ← Zap.alerts zap_helper (alert_level options);
  helpers.report_alerts alerts (output_format options);;
  (if self_contained options then
     console.info "Shutting down ZAP daemon";;
     helpers.zap_error_handler h (Zap.shutdown zap_helper)
   else mret ());;
  SOFT_FAIL ← os.getenv "SOFT_FAIL";
  let exit_code :=
    if bool_decide (0 < length alerts)%nat
       && negb (truthy (soft_fail options))
       && negb (truthy SOFT_FAIL)
    then 1 else 0 in
  sys.exit exit_code.

(** The character that delimits the file name in the message of [report]. *)
Definition dquote : string := String (Ascii.ascii_of_nat 34) EmptyString.

Definition exclude_from_scanners (h : handler) (zap_helper : ZAPHelper)
    (pattern : string) : M unit :=
  helpers.zap_error_handler h (Zap.exclude_from_all zap_helper pattern).

Definition report (zap_helper : ZAPHelper) (output : option string)
    (output_format : string) : M unit :=
  (if String.eqb output_format "html" then Zap.html_report zap_helper output
   else if String.eqb output_format "md" then Zap.md_report zap_helper output
   else Zap.xml_report zap_helper output);;
  console.info ("Report saved to " +:+ dquote +:+ default "None" output
                  +:+ dquote).

(** ** Invocation

    What click does with a command line: the group callback [cli] runs
    first, then the parameters of the chosen command are resolved, which
    runs their callbacks, and only then the command function is called. *)

(** A command with its parameters as they come from the command line.  The
    values of [--scanners] and [--exclude] are still strings here; for
    [quick-scan] they are given next to [rest], whose [scanners] and
    [exclude] fields are filled with what the callbacks return.  The
    [--soft-fail] option of a command is resolved by click from its flag or
    from the [SOFT_FAIL] variable; [soft_fail] holds the resolved value. *)
Inductive command :=
| start_cmd (start_options : option string)
| shutdown_cmd
| status_cmd (timeout : option Z)
| open_url_cmd (url : string)
| spider_cmd (url : string) (context_name user_name : option string)
| ajax_spider_cmd (url : string)
| active_scan_cmd (url : string) (scanners : option string)
    (recursive : bool) (context_name user_name : option string)
    (soft_fail : bool)
| alerts_cmd (alert_level output_format : string) (exit_code : bool)
| quick_scan_cmd (url : string) (scanners exclude : option string)
    (rest : options)
| exclude_cmd (pattern : string)
| report_cmd (output : option string) (output_format : string).

Definition with_callbacks (o : options) (scanners : option (list string))
    (exclude : option string) : options :=
  {| self_contained := self_contained o;
     scanners := scanners;
     spider := spider o;
     ajax_spider := ajax_spider o;
     recursive := recursive o;
     alert_level := alert_level o;
     exclude := exclude;
     start_options := start_options o;
     output_format := output_format o;
     context_name := context_name o;
     user_name := user_name o;
     soft_fail := soft_fail o |}.

Section invocation.
Variable compiles : string → bool.
Variable resolve : string → list string.
Variable h : handler.
Variable zap_helper : ZAPHelper.

Definition invoke (c : command) : M unit :=
  match c with
  | start_cmd start_options => start_zap_daemon h zap_helper start_options
  | shutdown_cmd => shutdown_zap_daemon h zap_helper
  | status_cmd timeout => check_status h zap_helper timeout
  | open_url_cmd url => open_url zap_helper url
  | spider_cmd url context_name user_name =>
      spider_url h zap_helper url context_name user_name
  | ajax_spider_cmd url => ajax_spider_url zap_helper url
  | active_scan_cmd url scanners recursive context_name user_name
      soft_fail =>
      scanners ← helpers.validate_scanner_list resolve scanners;
      active_scan h zap_helper url scanners recursive context_name
        user_name soft_fail
  | alerts_cmd alert_level output_format exit_code =>
      show_alerts zap_helper alert_level output_format exit_code
  | quick_scan_cmd url scanners exclude rest =>
      scanners ← helpers.validate_scanner_list resolve scanners;
      exclude ← helpers.validate_regex compiles exclude;
      quick_scan h zap_helper url (with_callbacks rest scanners exclude)
  | exclude_cmd pattern =>
      pattern ← helpers.validate_regex compiles (Some pattern);
      exclude_from_scanners h zap_helper (default "" pattern)
  | report_cmd output output_format => report zap_helper output output_format
  end.

Definition main (p : cli_params) (c : command) : M unit :=
  cli p;; invoke c.
End invocation.

(** The status the process ends with: 0 when the command returns, the
    argument of [sys.exit], 2 for a usage error reported by click, and 1 for
    an exception nobody caught. *)
Definition exit_status {A} (o : outcome A) : Z :=
  match o with
  | Return _ => 0
  | Raise (SystemExit code) => code
  | Raise (BadParameter _) => 2
  | Raise _ => 1
  end.

(** ** Reading a run *)

(** The events a computation added when it took the process from [s] to
    [s']. *)
Definition events_since (s s' : process) : list event :=
  drop (length (log s)) (log s').

(** The process after [evs] more events. *)
Definition extend (s : process) (evs : list event) : process :=
  Process (environ s) (colorize s) (level s) (log s ++ evs).

(** No call of the run raised. *)
Definition no_failure (evs : list event) : bool :=
  forallb (λ ev, match ev with Remote _ (Some _) => false | _ => true end)
    evs.

(** The alert sets handed to the reporter. *)
Definition reported (evs : list event) : list (list alert) :=
  omap (λ ev, match ev with Report al _ => Some al | _ => None end) evs.

(** The alert set the run collected: what the first [alerts] call that
    returned gave back, [before] being the calls made before [evs]. *)
Fixpoint collected (zh : ZAPHelper) (before : list call) (evs : list event)
    : option (list alert) :=
  match evs with
  | [] => None
  | Remote (Alerts lvl) None :: _ => Some (found zh before lvl)
  | Remote c _ :: evs' => collected zh (before ++ [c]) evs'
  | _ :: evs' => collected zh before evs'
  end.

(** How often the daemon shutdown was attempted. *)
Definition shutdown_attempts (evs : list event) : nat :=
  length (filter (λ c, c = Shutdown) (calls evs)).

(** A call other than the shutdown raised. *)
Definition failed_before_shutdown (evs : list event) : bool :=
  existsb (λ ev, match ev with
                 | Remote Shutdown _ => false
                 | Remote _ (Some _) => true
                 | _ => false
                 end) evs.

(** The calls of the scan proper: everything but daemon start and
    shutdown. *)
Definition stage_calls (evs : list event) : list (call * option exn) :=
  omap (λ ev, match ev with
              | Remote (Start _) _ | Remote Shutdown _ => None
              | Remote c r => Some (c, r)
              | _ => None
              end) evs.

(** Nothing was called after a call that raised. *)
Definition stops_at_failure (st : list (call * option exn)) : Prop :=
  ∀ i c e, st !! i = Some (c, Some e) → length st = S i.

(** ** The words of the spec *)

(** The process-wide soft-fail override, as [quick_scan] reads it. *)
Definition soft_fail_override (s : process) : bool :=
  truthy (environ s !! "SOFT_FAIL").

(** The exit-code policy in the words of the spec: 0 if no qualifying
    alerts exist, 0 if they exist but the soft-fail flag or the override is
    active, 1 otherwise. *)
Definition exit_code_policy (qualifying : nat) (flag override : bool) : Z :=
  if bool_decide (qualifying = 0%nat) then 0
  else if flag || override then 0
  else 1.

(** The fixed order of the spec: configure scanners, apply exclusions,
    register the target, optional passive crawl, optional active-content
    crawl, active vulnerability scan. *)
Definition stage_plan (url : string) (o : options) : list call :=
  (if truthy (scanners o)
   then [SetEnabledScanners (default [] (scanners o))] else []) ++
  (if truthy (exclude o)
   then [ExcludeFromAll (default "" (exclude o))] else []) ++
  [OpenUrl url] ++
  (if spider o then [RunSpider url (context_name o) (user_name o)] else []) ++
  (if ajax_spider o then [RunAjaxSpider url] else []) ++
  [RunActiveScan url (recursive o) (context_name o) (user_name o)].

(** ..., and last of all collect alerts. *)
Definition quick_scan_plan (url : string) (o : options) : list call :=
  stage_plan url o ++ [Alerts (alert_level o)].

(** A handler that lets no exception pass in silence: no error is
    swallowed. *)
Definition never_suppresses (h : handler) : Prop := ∀ e, is_Some (h e).

(** Some token of the value resolves to no scanner ID. *)
Definition invalid_scanners (resolve : string → list string)
    (value : option string) : Prop :=
  ∃ v tok, value = Some v ∧ tok ∈ helpers.split "," v ∧ resolve tok = [].

(** The pattern is not a regular expression. *)
Definition invalid_regex (compiles : string → bool)
    (value : option string) : Prop :=
  ∃ pattern, value = Some pattern ∧ compiles pattern = false.

Definition invalid_argument (compiles : string → bool)
    (resolve : string → list string) (c : command) : Prop :=
  match c with
  | quick_scan_cmd _ scanners exclude _ =>
      invalid_scanners resolve scanners ∨ invalid_regex compiles exclude
  | active_scan_cmd _ scanners _ _ _ _ => invalid_scanners resolve scanners
  | exclude_cmd pattern => compiles pattern = false
  | _ => False
  end.

(** ** The stages of a quick scan *)

(** The body of the second [with] block of [quick_scan], lines 230-244,
    under a name of its own so that lemmas can speak about it; see
    [quick_scan_stages_eq]. *)
Definition quick_scan_stages (zap_helper : ZAPHelper) (url : string)
    (options : options) : M unit :=
  (if truthy (scanners options)
   then Zap.set_enabled_scanners zap_helper (default [] (scanners options))
   else mret ());;
  (if truthy (exclude options)
   then Zap.exclude_from_all zap_helper (default "" (exclude options))
   else mret ());;
  Zap.open_url zap_helper url;;
  (if spider options
   then Zap.run_spider zap_helper url
          (context_name options) (user_name options)
   else mret ());;
  (if ajax_spider options
   then Zap.run_ajax_spider zap_helper url
   else mret ());;
  Zap.run_active_scan zap_helper url (recursive options)
    (context_name options) (user_name options).

(** Calls made one after the other until one raises: [attempted zh before
    plan evs out] says that going through [plan], after the calls [before],
    leaves the events [evs] and ends as [out]. *)
Inductive attempted (zh : ZAPHelper)
  : list call → list call → list event → outcome unit → Prop :=
| attempted_done before :
    attempted zh before [] [] (Return ())
| attempted_next before c plan evs out :
    raises zh before c = None →
    attempted zh (before ++ [c]) plan evs out →
    attempted zh before (c :: plan) (Remote c None :: evs) out
| attempted_stop before c plan e :
    raises zh before c = Some e →
    attempted zh before (c :: plan) [Remote c (Some e)] (Raise e).

(** [m] makes the calls of [plan], in order, until one raises. *)
Definition follows (zh : ZAPHelper) (m : M unit) (plan : list call) : Prop :=
  ∀ s out s', m s = (out, s') →
    ∃ evs, s' = extend s evs ∧ attempted zh (calls (log s)) plan evs out.

(** The calls [quick_scan] makes inside its second [with] block. *)
Definition is_stage (c : call) : bool :=
  match c with
  | SetEnabledScanners _ | ExcludeFromAll _ | OpenUrl _ | RunSpider _ _ _
  | RunAjaxSpider _ | RunActiveScan _ _ _ _ => true
  | _ => false
  end.

(** An event that records such a call. *)
Definition stage_event (ev : event) : Prop :=
  match ev with Remote c _ => is_stage c = true | _ => False end.

(** ** Two runs that differ in the output format *)

(** [options] with another [--output-format]. *)
Definition with_output_format (o : options) (f : string) : options :=
  {| self_contained := self_contained o;
     scanners := scanners o;
     spider := spider o;
     ajax_spider := ajax_spider o;
     recursive := recursive o;
     alert_level := alert_level o;
     exclude := exclude o;
     start_options := start_options o;
     output_format := f;
     context_name := context_name o;
     user_name := user_name o;
     soft_fail := soft_fail o |}.

(** Two processes that look the same to the daemon, to the environment
    and to whoever counts the alerts that were reported. *)
Definition same_view (s1 s2 : process) : Prop :=
  environ s1 = environ s2 ∧
  calls (log s1) = calls (log s2) ∧
  reported (log s1) = reported (log s2).

(** Two computations that, started in processes with the same view, end
    the same way in processes with the same view. *)
Definition agree {A} (m1 m2 : M A) : Prop :=
  ∀ s1 s2, same_view s1 s2 →
    (m1 s1).1 = (m2 s2).1 ∧ same_view (m1 s1).2 (m2 s2).2.

(** ** Sample runs *)

(** The defaults click gives the options of [quick-scan]. *)
Definition default_options : options :=
  {| self_contained := false;
     scanners := None;
     spider := false;
     ajax_spider := false;
     recursive := false;
     alert_level := "High";
     exclude := None;
     start_options := None;
     output_format := "table";
     context_name := None;
     user_name := None;
     soft_fail := false |}.

Definition default_params : cli_params :=
  {| boring := false; verbose := false; global_soft_fail := false |}.

(** A fresh process: empty environment, nothing logged. *)
Definition fresh : process := Process ∅ true "INFO" [].

(** A helper that raises on the calls listed in [failing], answers [up]
    to the liveness probe and returns [al] as the alerts. *)
Definition scripted (failing : list (call * exn)) (up : bool)
    (al : list alert) : ZAPHelper :=
  {| raises := λ _ c, snd <$> List.find (λ ce, bool_decide (ce.1 = c)) failing;
     running := λ _, up;
     found := λ _ _, al |}.

Definition xss : alert := Alert "Cross Site Scripting" "High".

Definition example_url : string := "http://example.com".

(** [quick-scan --self-contained --spider http://example.com] *)
Definition self_contained_options : options :=
  {| self_contained := true;
     scanners := None;
     spider := true;
     ajax_spider := false;
     recursive := false;
     alert_level := "High";
     exclude := None;
     start_options := None;
     output_format := "table";
     context_name := None;
     user_name := None;
     soft_fail := false |}.

(** [quick-scan --user-name admin http://example.com] *)
Definition user_without_context : options :=
  {| self_contained := false;
     scanners := None;
     spider := false;
     ajax_spider := false;
     recursive := false;
     alert_level := "High";
     exclude := None;
     start_options := None;
     output_format := "table";
     context_name := None;
     user_name := Some "admin";
     soft_fail := false |}.

(** [--soft-fail] given to [zap-cli] itself. *)
Definition soft_fail_params : cli_params :=
  {| boring := false; verbose := false; global_soft_fail := true |}.

(** A daemon whose active scan fails. *)
Definition scan_fails : ZAPHelper :=
  scripted [(RunActiveScan example_url false None None,
             ZAPError "Active scan failed")] true [].

(** A daemon that cannot list its alerts. *)
Definition alerts_fail : ZAPHelper :=
  scripted [(Alerts "High", ZAPError "No alerts")] true [].

(** A daemon that works and has found one alert. *)
Definition one_alert : ZAPHelper := scripted [] true [xss].

(** A daemon that is not running. *)
Definition not_running : ZAPHelper := scripted [] false [].

(** A handler that suppresses every exception. *)
Definition suppress_all : handler := λ _, None.

(** A stand-in for [re.compile] that refuses an unterminated set. *)
Definition sample_compiles (pattern : string) : bool :=
  negb (bool_decide (pattern = "[")).

(** A stand-in for the scanner table: two groups and [all]. *)
Definition sample_resolve (tok : string) : list string :=
  if bool_decide (tok = "all") then ["40012"; "40018"]
  else if bool_decide (tok = "xss") then ["40012"]
  else if bool_decide (tok = "sqli") then ["40018"]
  else [].

Definition failed_scan_run : outcome unit * process :=
  quick_scan (exit_on_zap_error 2) scan_fails example_url
    self_contained_options fresh.

Definition failed_alerts_run : outcome unit * process :=
  quick_scan suppress_all alerts_fail example_url
    self_contained_options fresh.

Definition one_alert_run : outcome unit * process :=
  quick_scan (exit_on_zap_error 2) one_alert example_url
    self_contained_options fresh.

Definition soft_fail_alerts_run : outcome unit * process :=
  main sample_compiles sample_resolve (exit_on_zap_error 2) one_alert
    soft_fail_params (alerts_cmd "High" "table" true) fresh.

Definition user_without_context_run : outcome unit * process :=
  quick_scan (exit_on_zap_error 2) one_alert example_url
    user_without_context fresh.

Definition bad_scanner_run : outcome unit * process :=
  main sample_compiles sample_resolve (exit_on_zap_error 2) one_alert
    default_params
    (quick_scan_cmd example_url (Some "xss,bogus") None default_options)
    fresh.

Definition soft_fail_scan_run : outcome unit * process :=
  (cli soft_fail_params;;
   quick_scan (exit_on_zap_error 2) one_alert example_url default_options)
    fresh.

(** ** Every command *)

(** Whether an exception raised by the call [failed] during the command
    [c] leaves a [with helpers.zap_error_handler()] block. *)
Definition routed (c : command) (failed : call) : bool :=
  match c with
  | open_url_cmd _ | ajax_spider_cmd _ | alerts_cmd _ _ _ | report_cmd _ _ =>
      false
  | quick_scan_cmd _ _ _ _ =>
      match failed with Alerts _ => false | _ => true end
  | _ => true
  end.

(** The single commands a quick scan stands for, run one after the other
    against the same daemon: open-url, spider and ajax-spider when asked
    for, and active-scan ... *)
Definition single_scan (h : handler) (zap_helper : ZAPHelper)
    (url : string) (o : options) : M unit :=
  open_url zap_helper url;;
  (if spider o
   then spider_url h zap_helper url (context_name o) (user_name o)
   else mret ());;
  (if ajax_spider o then ajax_spider_url zap_helper url else mret ());;
  active_scan h zap_helper url (scanners o) (recursive o) (context_name o)
    (user_name o) (soft_fail o).

(** ... and then alerts, with its exit-code option on. *)
Definition single_commands (h : handler) (zap_helper : ZAPHelper)
    (url : string) (o : options) : M unit :=
  single_scan h zap_helper url o;;
  show_alerts zap_helper (alert_level o) (output_format o) true.

(** The calls of a run that raised, each with its exception. *)
Definition failures (evs : list event) : list (call * exn) :=
  omap (λ ev, match ev with
              | Remote c (Some e) => Some (c, e)
              | _ => None
              end) evs.

(** [m] goes through [plan] when every call of [plan] returns: it makes
    these calls and no other, reports nothing, and returns. *)
Definition succeeds (zh : ZAPHelper) (m : M unit) (plan : list call) : Prop :=
  ∀ s revs, attempted zh (calls (log s)) plan revs (Return ()) →
    ∃ evs, m s = (Return (), extend s evs) ∧
           calls evs = plan ∧ reported evs = [].

(** ** More sample runs *)

(** A process started with [SOFT_FAIL=false] in its environment. *)
Definition soft_fail_false : process :=
  Process {["SOFT_FAIL" := "false"]} true "INFO" [].

(** [quick-scan --self-contained --spider http://example.com] as a command
    line. *)
Definition self_contained_command : command :=
  quick_scan_cmd example_url None None self_contained_options.

Definition failed_scan_command_run : outcome unit * process :=
  invoke sample_compiles sample_resolve (exit_on_zap_error 2) scan_fails
    self_contained_command fresh.

Definition soft_fail_false_run : outcome unit * process :=
  quick_scan (exit_on_zap_error 2) one_alert example_url default_options
    soft_fail_false.

Definition plain_scan_run : outcome unit * process :=
  quick_scan (exit_on_zap_error 2) one_alert example_url default_options
    fresh.

(** ** Shutdown failures, and two more daemons *)

(** The shutdown call of the run raised. *)
Definition shutdown_failed (evs : list event) : bool :=
  existsb (λ ev, match ev with
                 | Remote Shutdown (Some _) => true
                 | _ => false
                 end) evs.

(** A daemon that works, has found nothing, and fails to shut down. *)
Definition shutdown_fails : ZAPHelper :=
  scripted [(Shutdown, ZAPError "Shutdown failed")] true [].

Definition failed_shutdown_run : outcome unit * process :=
  quick_scan (exit_on_zap_error 2) shutdown_fails example_url
    self_contained_options fresh.

(** A daemon that refuses the scanner selection. *)
Definition scanners_fail : ZAPHelper :=
  scripted [(SetEnabledScanners ["40012"], ZAPError "No such scanner")]
    true [].

Definition failed_scanners_run : outcome unit * process :=
  active_scan (exit_on_zap_error 2) scanners_fail example_url
    (Some ["40012"]) false None None false fresh.

(** * Proofs *)

(** ** Logs *)

Lemma calls_app l k : calls (l ++ k) = calls l ++ calls k.
Proof. apply omap_app. Qed.

Lemma reported_app l k : reported (l ++ k) = reported l ++ reported k.
Proof. apply omap_app. Qed.

Lemma stage_calls_app l k :
  stage_calls (l ++ k) = stage_calls l ++ stage_calls k.
Proof. apply omap_app. Qed.

Lemma no_failure_app l k : no_failure (l ++ k) = no_failure l && no_failure k.
Proof. apply forallb_app. Qed.

Lemma failed_before_shutdown_app l k :
  failed_before_shutdown (l ++ k)
  = failed_before_shutdown l || failed_before_shutdown k.
Proof. apply existsb_app. Qed.

Lemma shutdown_attempts_app l k :
  shutdown_attempts (l ++ k)
  = (shutdown_attempts l + shutdown_attempts k)%nat.
Proof.
  unfold shutdown_attempts. by rewrite calls_app, filter_app, length_app.
Qed.

Lemma shutdown_failed_app l k :
  shutdown_failed (l ++ k) = shutdown_failed l || shutdown_failed k.
Proof. apply existsb_app. Qed.

Lemma extend_nil s : extend s [] = s.
Proof. destruct s. unfold extend. simpl. by rewrite app_nil_r. Qed.

(** An alert set is collected after [evs] exactly as it is after the
    calls of [evs], when [evs] holds no [alerts] call. *)
Lemma collected_app zh before evs rest :
  Forall (λ c, ∀ lvl, c ≠ Alerts lvl) (calls evs) →
  collected zh before (evs ++ rest) = collected zh (before ++ calls evs) rest.
Proof.
  revert before. induction evs as [|ev evs IH]; intros before Hno; simpl.
  - by rewrite app_nil_r.
  - destruct ev as [c r| |]; simpl in *; [|by apply IH..].
    apply Forall_cons in Hno as [Hc Hno].
    assert (collected zh (before ++ [c]) (evs ++ rest)
            = collected zh (before ++ c :: calls evs) rest) as Hstep.
    { rewrite (IH _ Hno), <- app_assoc. done. }
    destruct c; try done. exfalso. by eapply Hc.
Qed.

(** ** Attempted plans *)

Section attempted_facts.
Context {zh : ZAPHelper}.

Lemma attempted_calls_prefix before plan evs out :
  attempted zh before plan evs out → calls evs `prefix_of` plan.
Proof.
  induction 1 as [b|b c plan evs out _ _ IH|b c plan e _]; simpl.
  - done.
  - by apply prefix_cons.
  - apply prefix_cons, prefix_nil.
Qed.

Lemma attempted_return before plan evs :
  attempted zh before plan evs (Return ()) →
  calls evs = plan ∧ no_failure evs = true.
Proof.
  intros H. remember (Return ()) as out eqn:Hout.
  induction H as [b|b c plan evs out _ _ IH|b c plan e _]; simpl.
  - done.
  - destruct (IH Hout) as [-> ->]. done.
  - discriminate.
Qed.

Lemma attempted_raise before plan evs e :
  attempted zh before plan evs (Raise e) →
  ∃ pre c, evs = pre ++ [Remote c (Some e)] ∧ no_failure pre = true.
Proof.
  intros H. remember (Raise e) as out eqn:Hout.
  induction H as [b|b c plan evs out _ _ IH|b c plan e' _]; simpl.
  - discriminate.
  - destruct (IH Hout) as (pre & c' & -> & Hpre).
    exists (Remote c None :: pre), c'. by simpl.
  - injection Hout as ->. by exists [], c.
Qed.

Lemma attempted_raise_failure before plan evs e :
  attempted zh before plan evs (Raise e) → no_failure evs = false.
Proof.
  intros (pre & c & -> & _)%attempted_raise.
  rewrite no_failure_app. simpl. apply andb_false_r.
Qed.

Lemma attempted_first before c plan evs out :
  attempted zh before (c :: plan) evs out →
  ∃ r evs', evs = Remote c r :: evs'.
Proof. inversion 1; eauto. Qed.

Lemma attempted_stage_events before plan evs out :
  attempted zh before plan evs out →
  Forall (λ c, is_stage c = true) plan → Forall stage_event evs.
Proof.
  induction 1 as [b|b c plan evs out _ _ IH|b c plan e _];
    intros Hplan; [constructor|apply Forall_cons in Hplan as [Hc Hplan]..].
  - constructor; [done | by apply IH].
  - by repeat constructor.
Qed.
End attempted_facts.

(** ** Stage events *)

Lemma stage_events_shutdown evs :
  Forall stage_event evs → shutdown_attempts evs = 0%nat.
Proof.
  unfold shutdown_attempts.
  induction 1 as [|[c r| |] evs' Hev _ IH]; simpl; try done.
  rewrite filter_cons. case_decide as Hc; [by subst c | done].
Qed.

Lemma stage_events_reported evs : Forall stage_event evs → reported evs = [].
Proof. induction 1 as [|[| |] evs' Hev _ IH]; done. Qed.

Lemma stage_events_no_alerts evs :
  Forall stage_event evs → Forall (λ c, ∀ lvl, c ≠ Alerts lvl) (calls evs).
Proof.
  induction 1 as [|[c r| |] evs' Hev _ IH]; simpl; try done.
  constructor; [|done]. by intros lvl ->.
Qed.

Lemma stage_events_failure evs :
  Forall stage_event evs →
  failed_before_shutdown evs = negb (no_failure evs).
Proof.
  induction 1 as [|[c [e|]| |] evs' Hev _ IH]; simpl; try done.
  - by destruct c.
  - by destruct c.
Qed.

Lemma stage_events_stage_calls evs :
  Forall stage_event evs → (stage_calls evs).*1 = calls evs.
Proof.
  induction 1 as [|[c r| |] evs' Hev _ IH]; try done.
  destruct c; try done; simpl; f_equal; exact IH.
Qed.

Lemma stage_events_collected zh before evs :
  Forall stage_event evs → collected zh before evs = None.
Proof.
  intros Hevs. revert before.
  induction Hevs as [|[c r| |] evs' Hev _ IH]; intros before; simpl; try done.
  destruct c; try done; apply IH.
Qed.

Lemma stage_events_shutdown_failed evs :
  Forall stage_event evs → shutdown_failed evs = false.
Proof.
  induction 1 as [|[c r| |] evs' Hev _ IH]; simpl; try done.
  by destruct c.
Qed.

(** ** Computations that go through a plan *)

Lemma follows_invoke zh c : follows zh (Zap.invoke zh c) [c].
Proof.
  intros s out s'. unfold Zap.invoke.
  destruct (raises zh (calls (log s)) c) as [e|] eqn:Hc; intros [= <- <-].
  - exists [Remote c (Some e)]. split; [done | by constructor].
  - exists [Remote c None]. split; [done|]. constructor; [done | constructor].
Qed.

Lemma follows_seq zh c m plan :
  follows zh m plan → follows zh (Zap.invoke zh c;; m) (c :: plan).
Proof.
  intros Hm s out s'. unfold mbind, M_bind, Zap.invoke.
  destruct (raises zh (calls (log s)) c) as [e|] eqn:Hc.
  - intros [= <- <-]. exists [Remote c (Some e)]. split; [done | by constructor].
  - intros (evs & -> & Hevs)%Hm. exists (Remote c None :: evs). split.
    + unfold extend. simpl. by rewrite <- app_assoc.
    + constructor; [done|]. simpl in Hevs. by rewrite calls_app in Hevs.
Qed.

Lemma follows_skip zh m plan :
  follows zh m plan → follows zh (mret ();; m) plan.
Proof. intros Hm s out s'. apply Hm. Qed.

Lemma follows_when zh (b : bool) c m plan :
  follows zh m plan →
  follows zh ((if b then Zap.invoke zh c else mret ());; m)
    ((if b then [c] else []) ++ plan).
Proof. destruct b; [apply follows_seq | apply follows_skip]. Qed.

(** The [with] block of [quick_scan] goes through the stages in the order
    of the spec. *)
Lemma quick_scan_stages_follow zh url o :
  follows zh (quick_scan_stages zh url o) (stage_plan url o).
Proof.
  unfold quick_scan_stages, stage_plan.
  do 2 apply follows_when. apply (follows_seq _ (OpenUrl url)).
  do 2 apply follows_when. apply follows_invoke.
Qed.

Lemma stage_plan_stages url o :
  Forall (λ c, is_stage c = true) (stage_plan url o).
Proof.
  unfold stage_plan.
  repeat (apply Forall_app; split); try case_match; by repeat constructor.
Qed.

Lemma stage_plan_first url o :
  ∃ c rest, stage_plan url o = c :: rest ∧
    c ∈ [SetEnabledScanners (default [] (scanners o));
         ExcludeFromAll (default "" (exclude o)); OpenUrl url].
Proof.
  unfold stage_plan.
  destruct (truthy (scanners o)), (truthy (exclude o)); simpl;
    eexists _, _; (split; [reflexivity | rewrite !elem_of_cons; auto]).
Qed.

Create HintDb stages discriminated.
#[local] Hint Resolve attempted_stage_events stage_plan_stages : stages.

Lemma quick_scan_stages_run zh url o s out s' :
  quick_scan_stages zh url o s = (out, s') →
  ∃ evs, s' = extend s evs ∧
    attempted zh (calls (log s)) (stage_plan url o) evs out ∧
    Forall stage_event evs.
Proof.
  intros (evs & -> & Hevs)%quick_scan_stages_follow.
  eauto with stages.
Qed.

(** ** Running [quick_scan] phase by phase *)

(** [quick_scan] with its second [with] block under its name. *)
Lemma quick_scan_stages_eq h zap_helper url options :
  quick_scan h zap_helper url options
  = ((if self_contained options then
        console.info "Starting ZAP daemon";;
        helpers.zap_error_handler h
          (Zap.start zap_helper (start_options options))
      else mret ());;
     console.info ("Running a quick scan for " +:+ url);;
     helpers.zap_error_handler h (quick_scan_stages zap_helper url options);;
     alerts ← Zap.alerts zap_helper (alert_level options);
     helpers.report_alerts alerts (output_format options);;
     (if self_contained options then
        console.info "Shutting down ZAP daemon";;
        helpers.zap_error_handler h (Zap.shutdown zap_helper)
      else mret ());;
     SOFT_FAIL ← os.getenv "SOFT_FAIL";
     sys.exit (if bool_decide (0 < length alerts)%nat
                  && negb (truthy (soft_fail options))
                  && negb (truthy SOFT_FAIL)
               then 1 else 0)).
Proof. reflexivity. Qed.

Ltac unfold_phases :=
  unfold helpers.zap_error_handler, helpers.report_alerts, Zap.alerts,
    Zap.is_running, Zap.start, Zap.shutdown, Zap.wait_for_zap, Zap.invoke,
    console.info, console.error, sys.exit, os.getenv, raise, emit,
    mbind, M_bind, mret, M_ret.

Tactic Notation "unfold_phases" "in" hyp(H) :=
  unfold helpers.zap_error_handler, helpers.report_alerts, Zap.alerts,
    Zap.is_running, Zap.start, Zap.shutdown, Zap.wait_for_zap, Zap.invoke,
    console.info, console.error, sys.exit, os.getenv, raise, emit,
    mbind, M_bind, mret, M_ret in H.

(** One step of the run recorded in [H]: the stages as a whole, a call,
    the handler's reaction to an exception, or a flag. *)
Ltac run_step H :=
  match type of H with
  | context [quick_scan_stages ?z ?u ?o ?st] =>
      let Hst := fresh "Hst" in
      let evs := fresh "evs" in
      let Hatt := fresh "Hatt" in
      let Hevs := fresh "Hevs" in
      destruct (quick_scan_stages z u o st) as [[[]|?] ?] eqn:Hst;
      rewrite ?Hst in H;
      apply quick_scan_stages_run in Hst as (evs & -> & Hatt & Hevs)
  | context [match raises ?z ?b ?c with _ => _ end] =>
      let Hc := fresh "Hc" in
      destruct (raises z b c) eqn:Hc; rewrite ?Hc in H
  | context [match ?h ?e with _ => _ end] =>
      is_var h;
      let t := type of e in
      constr_eq t exn;
      let Hh := fresh "Hh" in
      destruct (h e) eqn:Hh; rewrite ?Hh in H
  | context [if ?b then _ else _] =>
      lazymatch b with
      | context [bool_decide _] => fail
      | _ => let Hb := fresh "Hb" in destruct b eqn:Hb; rewrite ?Hb in H
      end
  end; simpl in H.

(** Runs [quick_scan] in [H : quick_scan h zh url o s = (out, s')] to its
    end, one goal for each way through the phases. *)
Ltac run_quick_scan H :=
  rewrite quick_scan_stages_eq in H;
  unfold_phases in H; simpl in H; repeat run_step H;
  injection H as <- <-.

(** The events of the run, as the pieces the phases added. *)
Ltac since_start :=
  unfold events_since; simpl; rewrite <- ?app_assoc, drop_app_length.

Ltac read_log :=
  rewrite ?calls_app, ?reported_app, ?stage_calls_app, ?no_failure_app,
    ?failed_before_shutdown_app, ?shutdown_attempts_app;
  simpl.

Lemma quick_scan_extends (h : handler) zh url o s out s' :
  quick_scan h zh url o s = (out, s') → ∃ evs, s' = extend s evs.
Proof.
  intros Hrun. run_quick_scan Hrun.
  all: unfold extend; simpl; rewrite <- ?app_assoc; eauto.
Qed.

(** ** The exit code of a quick scan *)

Lemma exit_code_policy_eq (n : nat) (flag override : bool) :
  (if bool_decide (0 < n)%nat && negb flag && negb override then 1 else 0)
  = exit_code_policy n flag override.
Proof.
  unfold exit_code_policy.
  destruct n, flag, override; reflexivity.
Qed.

(** A run in which no call raises ends in [sys.exit] with the code the
    policy gives for the alert set the run collected and reported. *)
Lemma quick_scan_completed (h : handler) zh url o s out s' :
  quick_scan h zh url o s = (out, s') →
  no_failure (events_since s s') = true →
  ∃ al, collected zh (calls (log s)) (events_since s s') = Some al ∧
        reported (events_since s s') = [al] ∧
        out = Raise (SystemExit
                (exit_code_policy (length al) (soft_fail o)
                   (soft_fail_override s))).
Proof.
  intros Hrun. run_quick_scan Hrun.
  all: since_start; read_log.
  all: try (rewrite (attempted_raise_failure _ _ _ _ Hatt)).
  all: rewrite ?andb_false_r; try discriminate.
  all: intros _; eexists.
  all: rewrite ?collected_app by by apply stage_events_no_alerts.
  all: simpl; rewrite (stage_events_reported _ Hevs).
  all: rewrite <- ?app_assoc; simpl.
  all: split; [reflexivity|split; [reflexivity|]].
  all: rewrite exit_code_policy_eq; reflexivity.
Qed.

(** C2, as the code has it: a quick scan that collects alerts and whose
    daemon shutdown, when it is self-contained, does not raise reports the
    collected set and ends the process with the code of the exit-code
    policy: 0 when the set is empty, 0 when it is not but the soft-fail
    flag or the override is active, 1 otherwise.  This holds for every
    value of the flag and of the override. *)
Theorem quick_scan_exit_code (h : handler) zh url o s out s' al :
  quick_scan h zh url o s = (out, s') →
  collected zh (calls (log s)) (events_since s s') = Some al →
  shutdown_failed (events_since s s') = false →
  reported (events_since s s') = [al] ∧
  out = Raise (SystemExit
          (exit_code_policy (length al) (soft_fail o)
             (soft_fail_override s))) ∧
  exit_status out
  = exit_code_policy (length al) (soft_fail o) (soft_fail_override s).
Proof.
  intros Hrun. run_quick_scan Hrun.
  all: since_start; read_log; rewrite ?shutdown_failed_app.
  all: rewrite ?collected_app by by apply stage_events_no_alerts.
  all: simpl; rewrite ?(stage_events_collected _ _ _ Hevs),
         ?(stage_events_reported _ Hevs),
         ?(stage_events_shutdown_failed _ Hevs).
  all: simpl; rewrite ?orb_true_r; try discriminate.
  all: intros [= <-] Hdown; try discriminate.
  all: rewrite <- ?app_assoc; simpl; rewrite exit_code_policy_eq.
  all: done.
Qed.

Lemma quick_scan_exit_code_witness :
  collected one_alert (calls (log fresh))
    (events_since fresh one_alert_run.2) = Some [xss] ∧
  shutdown_failed (events_since fresh one_alert_run.2) = false ∧
  reported (events_since fresh one_alert_run.2) = [[xss]] ∧
  one_alert_run.1
  = Raise (SystemExit
      (exit_code_policy (length [xss]) (soft_fail self_contained_options)
         (soft_fail_override fresh))) ∧
  exit_status one_alert_run.1
  = exit_code_policy (length [xss]) (soft_fail self_contained_options)
      (soft_fail_override fresh).
Proof.
  split; [vm_compute; reflexivity|]. split; [vm_compute; reflexivity|].
  apply (quick_scan_exit_code (exit_on_zap_error 2) one_alert example_url
           self_contained_options fresh one_alert_run.1 one_alert_run.2
           [xss]).
  - vm_compute; reflexivity.
  - vm_compute; reflexivity.
  - vm_compute; reflexivity.
Defined.

(** C2 fails: a self-contained run goes through its stages without a
    failure and collects an empty alert set, for which the policy gives 0;
    its shutdown raises, the handler turns the error into an exit, and the
    process ends with that status instead. *)
Lemma quick_scan_shutdown_masks_exit_code :
  (stage_calls (events_since fresh failed_shutdown_run.2)).*1
  = quick_scan_plan example_url self_contained_options ∧
  failures (events_since fresh failed_shutdown_run.2)
  = [(Shutdown, ZAPError "Shutdown failed")] ∧
  collected shutdown_fails (calls (log fresh))
    (events_since fresh failed_shutdown_run.2) = Some [] ∧
  exit_code_policy (length (@nil alert)) (soft_fail self_contained_options)
    (soft_fail_override fresh) = 0 ∧
  exit_status failed_shutdown_run.1 ≠ 0.
Proof. repeat split; vm_compute; (reflexivity || discriminate). Qed.

(** ** Shutdown of a self-contained scan *)

Lemma never_suppressed (h : handler) e :
  never_suppresses h → h e = None → False.
Proof. intros Hh He. destruct (Hh e) as [e' He']. congruence. Qed.

Lemma exit_on_zap_error_never_suppresses code :
  never_suppresses (exit_on_zap_error code).
Proof. intros e. destruct e; simpl; eauto. Qed.

(** C1, as the code has it: in a self-contained quick scan whose error
    handler suppresses nothing, the daemon shutdown is attempted exactly once
    when daemon start, the stages and alert collection all succeed, and not
    at all when one of them raises. *)
Theorem quick_scan_shutdown_attempts (h : handler) zh url o s out s' :
  self_contained o = true →
  never_suppresses h →
  quick_scan h zh url o s = (out, s') →
  shutdown_attempts (events_since s s')
  = if failed_before_shutdown (events_since s s') then 0%nat else 1%nat.
Proof.
  intros Hsc Hh Hrun. run_quick_scan Hrun.
  all: try congruence.
  all: try by (exfalso; eauto using never_suppressed).
  all: since_start; read_log.
  all: rewrite ?(stage_events_shutdown _ Hevs), ?(stage_events_failure _ Hevs).
  all: try (rewrite (attempted_raise_failure _ _ _ _ Hatt)).
  all: try (apply attempted_return in Hatt as [_ ->]).
  all: simpl; rewrite ?orb_true_r; try reflexivity.
Qed.

Lemma quick_scan_shutdown_attempts_witness :
  self_contained self_contained_options = true ∧
  never_suppresses (exit_on_zap_error 2) ∧
  shutdown_attempts (events_since fresh failed_scan_run.2)
  = if failed_before_shutdown (events_since fresh failed_scan_run.2)
    then 0%nat else 1%nat.
Proof.
  split; [reflexivity|].
  split; [apply exit_on_zap_error_never_suppresses|].
  apply (quick_scan_shutdown_attempts (exit_on_zap_error 2) scan_fails
           example_url self_contained_options fresh
           failed_scan_run.1 failed_scan_run.2).
  - reflexivity.
  - apply exit_on_zap_error_never_suppresses.
  - vm_compute; reflexivity.
Defined.

(** C1 fails: a self-contained run whose active scan raises, under a
    handler that turns the error into an exit, never attempts the
    shutdown; neither does a run whose alert collection raises, even under
    a handler that suppresses everything. *)
Lemma quick_scan_shutdown_skipped :
  self_contained self_contained_options = true ∧
  shutdown_attempts (events_since fresh failed_scan_run.2) ≠ 1%nat ∧
  shutdown_attempts (events_since fresh failed_alerts_run.2) ≠ 1%nat.
Proof. split; [reflexivity|]. split; vm_compute; discriminate. Qed.

(** ** Order of the stages *)

Lemma stops_at_failure_last pre x :
  Forall (λ cr : call * option exn, cr.2 = None) pre →
  stops_at_failure (pre ++ [x]).
Proof.
  intros Hpre i c e Hi. rewrite length_app. simpl.
  destruct (decide (i < length pre)%nat) as [Hlt|Hge].
  - rewrite lookup_app_l in Hi by done.
    eapply Forall_lookup_1 in Hpre; [|done]. done.
  - apply lookup_lt_Some in Hi. rewrite length_app in Hi. simpl in Hi. lia.
Qed.

Lemma stops_at_failure_ok st :
  Forall (λ cr : call * option exn, cr.2 = None) st → stops_at_failure st.
Proof.
  intros Hst i c e Hi. eapply Forall_lookup_1 in Hst; [|done]. done.
Qed.

Lemma no_failure_stage_calls evs :
  no_failure evs = true →
  Forall (λ cr : call * option exn, cr.2 = None) (stage_calls evs).
Proof.
  induction evs as [|ev evs IH]; intros Hok; [constructor|].
  destruct ev as [c [e|]| |]; simpl in *; try done; try by apply IH.
  destruct c; simpl; try (by apply IH); (constructor; [done | by apply IH]).
Qed.

Lemma attempted_stage_calls zh before plan evs out :
  attempted zh before plan evs out →
  Forall stage_event evs →
  (stage_calls evs).*1 `prefix_of` plan ∧
  stops_at_failure (stage_calls evs) ∧
  (out = Return () →
   (stage_calls evs).*1 = plan ∧
   Forall (λ cr : call * option exn, cr.2 = None) (stage_calls evs)).
Proof.
  intros Hatt Hevs. rewrite (stage_events_stage_calls _ Hevs).
  split; [by eapply attempted_calls_prefix|]. destruct out as [[]|e].
  - apply attempted_return in Hatt as [-> Hok].
    apply no_failure_stage_calls in Hok.
    eauto using stops_at_failure_ok.
  - split; [|done].
    apply attempted_raise in Hatt as (pre & c & -> & Hpre).
    rewrite stage_calls_app.
    rewrite Forall_app, Forall_singleton in Hevs. destruct Hevs as [_ Hc].
    replace (stage_calls [Remote c (Some e)]) with [(c, Some e)]
      by by destruct c.
    by apply stops_at_failure_last, no_failure_stage_calls.
Qed.

(** C7: under a handler that suppresses nothing, the calls of a quick scan
    other than daemon start and shutdown are an initial part of the fixed
    order (configure scanners, apply exclusions, register the target,
    optional spider, optional AJAX spider, active scan, collect alerts),
    nothing is called after a call that raised, and a run without failure
    goes through the whole order. *)
Theorem quick_scan_stage_order (h : handler) zh url o s out s' :
  never_suppresses h →
  quick_scan h zh url o s = (out, s') →
  (stage_calls (events_since s s')).*1 `prefix_of` quick_scan_plan url o ∧
  stops_at_failure (stage_calls (events_since s s')) ∧
  (no_failure (events_since s s') = true →
   (stage_calls (events_since s s')).*1 = quick_scan_plan url o).
Proof.
  intros Hh Hrun. unfold quick_scan_plan. run_quick_scan Hrun.
  all: try by (exfalso; eauto using never_suppressed).
  all: since_start; read_log.
  all: try (rewrite (attempted_raise_failure _ _ _ _ Hatt)).
  all: rewrite ?andb_false_r, ?app_nil_r.
  all: try (split; [apply prefix_nil|split; [by intros []|done]]).
  all: destruct (attempted_stage_calls _ _ _ _ _ Hatt Hevs)
         as (Hpre & Hstop & Hret).
  all: try destruct (Hret eq_refl) as [Hall Hok]; clear Hret.
  all: rewrite ?fmap_app; simpl.
  all: split; [|split]; try done.
  all: try (by rewrite Hall).
  all: try (by apply prefix_app_r).
  all: by apply stops_at_failure_last.
Qed.

Lemma quick_scan_stage_order_witness :
  never_suppresses (exit_on_zap_error 2) ∧
  (stage_calls (events_since fresh failed_scan_run.2)).*1
    `prefix_of` quick_scan_plan example_url self_contained_options ∧
  stops_at_failure (stage_calls (events_since fresh failed_scan_run.2)) ∧
  (no_failure (events_since fresh failed_scan_run.2) = true →
   (stage_calls (events_since fresh failed_scan_run.2)).*1
   = quick_scan_plan example_url self_contained_options).
Proof.
  split; [apply exit_on_zap_error_never_suppresses|].
  apply (quick_scan_stage_order (exit_on_zap_error 2) scan_fails
           example_url self_contained_options fresh
           failed_scan_run.1 failed_scan_run.2).
  - apply exit_on_zap_error_never_suppresses.
  - vm_compute; reflexivity.
Defined.

(** ** A user name without a context name *)

(** C4 does not hold: a quick scan given a user name and no context name
    is not rejected before it talks to the daemon.  Whatever the daemon
    answers, the run makes a remote call, and its first call is daemon
    start, scanner configuration, exclusion or open-url. *)
Theorem quick_scan_user_without_context (h : handler) zh url o u s out s' :
  user_name o = Some u →
  context_name o = None →
  quick_scan h zh url o s = (out, s') →
  ∃ c, head (calls (events_since s s')) = Some c ∧
    c ∈ [Start (start_options o);
         SetEnabledScanners (default [] (scanners o));
         ExcludeFromAll (default "" (exclude o)); OpenUrl url].
Proof.
  intros _ _ Hrun. run_quick_scan Hrun.
  all: since_start; read_log.
  all: try (eexists; split; [reflexivity | rewrite !elem_of_cons; auto]).
  all: destruct (stage_plan_first url o) as (c & rest & Hplan & Hfirst).
  all: rewrite Hplan in Hatt.
  all: apply attempted_first in Hatt as (r & evs' & ->).
  all: exists c; split; [reflexivity|].
  all: rewrite !elem_of_cons in Hfirst; rewrite !elem_of_cons; tauto.
Qed.

Lemma quick_scan_user_without_context_witness :
  user_name user_without_context = Some "admin" ∧
  context_name user_without_context = None ∧
  ∃ c, head (calls (events_since fresh user_without_context_run.2)) = Some c ∧
    c ∈ [Start (start_options user_without_context);
         SetEnabledScanners (default [] (scanners user_without_context));
         ExcludeFromAll (default "" (exclude user_without_context));
         OpenUrl example_url].
Proof.
  split; [reflexivity|]. split; [reflexivity|].
  apply (quick_scan_user_without_context (exit_on_zap_error 2) one_alert
           example_url user_without_context "admin" fresh
           user_without_context_run.1 user_without_context_run.2).
  - reflexivity.
  - reflexivity.
  - vm_compute; reflexivity.
Defined.

(** ** The status command *)

(** C5: when the liveness probe answers that the daemon is running, the
    status command reports it and returns, without another probe, whatever
    the timeout; when it answers that the daemon is not running and no
    timeout was given, the command reports it and exits with code 2 after
    that single probe (the handler lets [SystemExit] through). *)
Theorem check_status_probe (h : handler) zh timeout s :
  raises zh (calls (log s)) IsRunning = None →
  (running zh (calls (log s)) = true →
   check_status h zh timeout s
   = (Return (),
      extend s [Remote IsRunning None; Console INFO "ZAP is running"])) ∧
  (running zh (calls (log s)) = false →
   timeout = None →
   h (SystemExit 2) = Some (SystemExit 2) →
   check_status h zh timeout s
   = (Raise (SystemExit 2),
      extend s [Remote IsRunning None; Console ERROR "ZAP is not running"])
   ∧ exit_status (check_status h zh timeout s).1 = 2).
Proof.
  intros Hprobe. unfold check_status.
  unfold_phases. simpl. rewrite Hprobe. split.
  - intros ->. unfold extend. simpl. by rewrite <- app_assoc.
  - intros -> -> ->. unfold extend. simpl. by rewrite <- app_assoc.
Qed.

Lemma check_status_probe_witness :
  check_status (exit_on_zap_error 2) one_alert (Some 5) fresh
  = (Return (),
     extend fresh [Remote IsRunning None; Console INFO "ZAP is running"]) ∧
  check_status (exit_on_zap_error 2) not_running None fresh
  = (Raise (SystemExit 2),
     extend fresh [Remote IsRunning None;
                   Console ERROR "ZAP is not running"]) ∧
  exit_status (check_status (exit_on_zap_error 2) not_running None fresh).1
  = 2.
Proof.
  split.
  - apply (check_status_probe (exit_on_zap_error 2) one_alert (Some 5) fresh);
      reflexivity.
  - apply (check_status_probe (exit_on_zap_error 2) not_running None fresh);
      reflexivity.
Defined.

(** ** Callbacks *)

Lemma cli_run p s :
  cli p s
  = (Return (),
     Process (if global_soft_fail p
              then <["SOFT_FAIL" := "true"]> (environ s) else environ s)
       (negb (boring p)) (if verbose p then "DEBUG" else "INFO") (log s)).
Proof. unfold cli. by destruct (verbose p), (global_soft_fail p). Qed.

Lemma validate_scanner_list_pure resolve value s :
  (helpers.validate_scanner_list resolve value s).2 = s.
Proof.
  unfold helpers.validate_scanner_list.
  destruct value as [v|]; [|done]. by case_match.
Qed.

Lemma validate_scanner_list_invalid resolve value s :
  invalid_scanners resolve value →
  ∃ msg, helpers.validate_scanner_list resolve value s
         = (Raise (BadParameter msg), s).
Proof.
  intros (v & tok & -> & Htok & Hnone). simpl.
  destruct (filter _ _) as [|tok' toks] eqn:Hfilter; [|by eexists].
  assert (tok ∈ filter (λ tok, resolve tok = []) (helpers.split "," v))
    as Hin by by apply list_elem_of_filter.
  rewrite Hfilter in Hin. by apply elem_of_nil in Hin.
Qed.

Lemma validate_regex_invalid compiles value s :
  invalid_regex compiles value →
  ∃ msg, helpers.validate_regex compiles value s
         = (Raise (BadParameter msg), s).
Proof. intros (pat & -> & Hpat). simpl. rewrite Hpat. by eexists. Qed.

(** C6: an invocation of quick-scan, active-scan or exclude with an
    exclusion pattern that does not compile or a scanner token that resolves
    to no ID ends in [BadParameter] and leaves the log as it was: nothing
    was called, daemon start included. *)
Theorem invalid_argument_no_remote_call compiles resolve (h : handler) zh p
    c s out s' :
  invalid_argument compiles resolve c →
  main compiles resolve h zh p c s = (out, s') →
  (∃ msg, out = Raise (BadParameter msg)) ∧ log s' = log s.
Proof.
  unfold main. unfold mbind at 1. unfold M_bind. rewrite cli_run.
  set (s1 := Process _ _ _ _).
  destruct c as [so| |t|u|u cn un|u|u sc rc cn un sf|lvl fmt ec
                |u sc ex rest|pat|f fmt]; simpl; try done.
  - intros [msg Hbad]%(validate_scanner_list_invalid _ _ s1).
    unfold mbind, M_bind. rewrite Hbad. intros [= <- <-]. eauto.
  - intros Hbad. unfold mbind, M_bind.
    pose proof (validate_scanner_list_pure resolve sc s1) as Hpure.
    destruct (helpers.validate_scanner_list resolve sc s1)
      as [[sc'|e] s2] eqn:Hsc; simpl in Hpure; subst s2.
    + destruct Hbad as [Hbad|Hbad].
      * apply (validate_scanner_list_invalid _ _ s1) in Hbad as [msg Hbad].
        congruence.
      * apply (validate_regex_invalid _ _ s1) in Hbad as [msg ->].
        intros [= <- <-]. eauto.
    + intros [= <- <-]. split; [|done].
      unfold helpers.validate_scanner_list in Hsc.
      destruct sc as [v|]; [|done]. case_match; [done|].
      injection Hsc as <-. eauto.
  - intros Hbad. unfold mbind, M_bind. rewrite Hbad.
    intros [= <- <-]. eauto.
Qed.

Lemma invalid_argument_no_remote_call_witness :
  invalid_argument sample_compiles sample_resolve
    (quick_scan_cmd example_url (Some "xss,bogus") None default_options) ∧
  (∃ msg, bad_scanner_run.1 = Raise (BadParameter msg)) ∧
  log bad_scanner_run.2 = log fresh.
Proof.
  assert (invalid_argument sample_compiles sample_resolve
            (quick_scan_cmd example_url (Some "xss,bogus") None
               default_options)) as Hbad.
  { left. exists "xss,bogus", "bogus". split; [reflexivity|].
    split; [|reflexivity]. vm_compute. apply list_elem_of_In. simpl. auto. }
  split; [exact Hbad|].
  apply (invalid_argument_no_remote_call sample_compiles sample_resolve
           (exit_on_zap_error 2) one_alert default_params
           (quick_scan_cmd example_url (Some "xss,bogus") None
              default_options)
           fresh bad_scanner_run.1 bad_scanner_run.2).
  - exact Hbad.
  - vm_compute; reflexivity.
Defined.

(** ** The alerts command *)

(** C9: with the exit-code option off, the alerts command reports the
    alerts it collected and returns without calling [sys.exit]; the process
    ends with status 0, whatever the level and however many alerts. *)
Theorem show_alerts_without_exit_code zh alert_level output_format s :
  raises zh (calls (log s)) (Alerts alert_level) = None →
  show_alerts zh alert_level output_format false s
  = (Return (),
     extend s [Remote (Alerts alert_level) None;
               Report (found zh (calls (log s)) alert_level) output_format])
  ∧ exit_status (show_alerts zh alert_level output_format false s).1 = 0.
Proof.
  intros Hok. unfold show_alerts. unfold_phases. simpl. rewrite Hok.
  unfold extend. simpl. by rewrite <- app_assoc.
Qed.

Lemma show_alerts_without_exit_code_witness :
  raises one_alert (calls (log fresh)) (Alerts "High") = None ∧
  show_alerts one_alert "High" "json" false fresh
  = (Return (),
     extend fresh [Remote (Alerts "High") None;
                   Report (found one_alert (calls (log fresh)) "High")
                     "json"]) ∧
  exit_status (show_alerts one_alert "High" "json" false fresh).1 = 0.
Proof.
  split; [reflexivity|].
  apply (show_alerts_without_exit_code one_alert "High" "json" fresh).
  reflexivity.
Defined.

(** C3, as the code has it: the alerts command has no soft-fail flag and
    does not read the override.  With the exit-code option on it exits with 1
    whenever the collected alert set is not empty and with 0 when it is,
    whatever the top-level soft-fail flag and the environment. *)
Theorem alerts_exit_code compiles resolve (h : handler) zh p alert_level
    output_format s out s' :
  main compiles resolve h zh p (alerts_cmd alert_level output_format true) s
  = (out, s') →
  no_failure (events_since s s') = true →
  ∃ al, collected zh (calls (log s)) (events_since s s') = Some al ∧
        reported (events_since s s') = [al] ∧
        out = Raise (SystemExit (if bool_decide (al = []) then 0 else 1)).
Proof.
  unfold main. unfold mbind at 1. unfold M_bind. rewrite cli_run. simpl.
  unfold show_alerts. unfold_phases. simpl.
  destruct (raises zh (calls (log s)) (Alerts alert_level)) eqn:Hc;
    intros [= <- <-]; since_start; [done|].
  intros _. eexists. simpl. split; [done|]. split; [done|].
  by destruct (found _ _ _).
Qed.

Lemma alerts_exit_code_witness :
  no_failure (events_since fresh soft_fail_alerts_run.2) = true ∧
  ∃ al, collected one_alert (calls (log fresh))
          (events_since fresh soft_fail_alerts_run.2) = Some al ∧
        reported (events_since fresh soft_fail_alerts_run.2) = [al] ∧
        soft_fail_alerts_run.1
        = Raise (SystemExit (if bool_decide (al = []) then 0 else 1)).
Proof.
  split; [vm_compute; reflexivity|].
  apply (alerts_exit_code sample_compiles sample_resolve
           (exit_on_zap_error 2) one_alert soft_fail_params "High" "table"
           fresh soft_fail_alerts_run.1 soft_fail_alerts_run.2).
  - vm_compute; reflexivity.
  - vm_compute; reflexivity.
Defined.

(** C3 fails: with the top-level soft-fail flag given, and so with the
    override set, the alerts command reports one alert and exits with 1. *)
Lemma alerts_ignores_soft_fail :
  global_soft_fail soft_fail_params = true ∧
  soft_fail_override soft_fail_alerts_run.2 = true ∧
  reported (log soft_fail_alerts_run.2) = [[xss]] ∧
  exit_status soft_fail_alerts_run.1 ≠ 0.
Proof. repeat split; vm_compute; (reflexivity || discriminate). Qed.

(** ** The top-level soft-fail flag *)

(** C10: the top-level soft-fail flag makes [cli] set [SOFT_FAIL] in the
    environment of the process; the variable is still set when a following
    quick scan ends, and a quick scan that gets to its exit code exits with
    0, whatever its alerts and its own soft-fail flag. *)
Theorem global_soft_fail_override (h : handler) zh p url o s out s' :
  global_soft_fail p = true →
  (cli p;; quick_scan h zh url o) s = (out, s') →
  environ (cli p s).2 !! "SOFT_FAIL" = Some "true" ∧
  environ s' !! "SOFT_FAIL" = Some "true" ∧
  (no_failure (events_since s s') = true → out = Raise (SystemExit 0)).
Proof.
  intros Hp. unfold mbind at 1. unfold M_bind. rewrite cli_run, Hp. simpl.
  set (s1 := Process _ _ _ _). intros Hrun.
  assert (environ s1 !! "SOFT_FAIL" = Some "true") as Henv
    by apply lookup_insert_eq.
  split; [done|].
  destruct (quick_scan_extends _ _ _ _ _ _ _ Hrun) as [evs ->].
  split; [done|].
  change (events_since s (extend s1 evs))
    with (events_since s1 (extend s1 evs)).
  intros (al & _ & _ & ->)%(quick_scan_completed _ _ _ _ _ _ _ Hrun).
  unfold soft_fail_override. rewrite Henv. simpl.
  unfold exit_code_policy. case_bool_decide; [done|].
  by rewrite orb_true_r.
Qed.

Lemma global_soft_fail_override_witness :
  global_soft_fail soft_fail_params = true ∧
  environ (cli soft_fail_params fresh).2 !! "SOFT_FAIL" = Some "true" ∧
  environ soft_fail_scan_run.2 !! "SOFT_FAIL" = Some "true" ∧
  (no_failure (events_since fresh soft_fail_scan_run.2) = true →
   soft_fail_scan_run.1 = Raise (SystemExit 0)).
Proof.
  split; [reflexivity|].
  apply (global_soft_fail_override (exit_on_zap_error 2) one_alert
           soft_fail_params example_url default_options fresh
           soft_fail_scan_run.1 soft_fail_scan_run.2).
  - reflexivity.
  - vm_compute; reflexivity.
Defined.

(** ** The output format only changes the rendering *)

Lemma same_view_refl s : same_view s s.
Proof. done. Qed.

Lemma agree_ret {A} (a : A) : agree (mret a) (mret a).
Proof. by intros s1 s2 Hs. Qed.

Lemma agree_raise {A} e : agree (raise (A:=A) e) (raise e).
Proof. by intros s1 s2 Hs. Qed.

Lemma agree_bind {A B} (m1 m2 : M A) (f1 f2 : A → M B) :
  agree m1 m2 → (∀ a, agree (f1 a) (f2 a)) → agree (m1 ≫= f1) (m2 ≫= f2).
Proof.
  intros Hm Hf s1 s2 Hs. unfold mbind, M_bind.
  destruct (Hm s1 s2 Hs) as [Hout Hs'].
  destruct (m1 s1) as [[a1|e1] s1'], (m2 s2) as [[a2|e2] s2'];
    simpl in *; try discriminate.
  - injection Hout as ->. by apply Hf.
  - injection Hout as ->. done.
Qed.

Lemma agree_if {A} (b : bool) (m1 m2 m1' m2' : M A) :
  agree m1 m1' → agree m2 m2' →
  agree (if b then m1 else m2) (if b then m1' else m2').
Proof. by destruct b. Qed.

Lemma agree_console lvl msg :
  agree (emit (Console lvl msg)) (emit (Console lvl msg)).
Proof.
  intros s1 s2 (Henv & Hcalls & Hrep). split; [done|].
  unfold same_view. simpl. by rewrite !calls_app, !reported_app, Hcalls, Hrep.
Qed.

Lemma agree_report al f1 f2 :
  agree (helpers.report_alerts al f1) (helpers.report_alerts al f2).
Proof.
  intros s1 s2 (Henv & Hcalls & Hrep). split; [done|].
  unfold same_view. simpl. by rewrite !calls_app, !reported_app, Hcalls, Hrep.
Qed.

Lemma agree_invoke zh c : agree (Zap.invoke zh c) (Zap.invoke zh c).
Proof.
  intros s1 s2 (Henv & Hcalls & Hrep). unfold Zap.invoke. simpl.
  rewrite Hcalls. split; [done|].
  unfold same_view. simpl. by rewrite !calls_app, !reported_app, Hcalls, Hrep.
Qed.

Lemma agree_alerts zh lvl : agree (Zap.alerts zh lvl) (Zap.alerts zh lvl).
Proof.
  intros s1 s2 Hs. unfold Zap.alerts.
  destruct (agree_invoke zh (Alerts lvl) s1 s2 Hs) as [Hout Hs'].
  destruct Hs as (_ & Hcalls & _).
  destruct (Zap.invoke zh (Alerts lvl) s1) as [[[]|e1] s1'],
    (Zap.invoke zh (Alerts lvl) s2) as [[[]|e2] s2'];
    simpl in *; try discriminate;
    [by rewrite Hcalls | by injection Hout as ->].
Qed.

Lemma agree_getenv name : agree (os.getenv name) (os.getenv name).
Proof.
  intros s1 s2 Hs. unfold os.getenv. simpl.
  split; [by destruct Hs as [-> _] | done].
Qed.

Lemma agree_handler h (m1 m2 : M unit) :
  agree m1 m2 →
  agree (helpers.zap_error_handler h m1) (helpers.zap_error_handler h m2).
Proof.
  intros Hm s1 s2 Hs. unfold helpers.zap_error_handler.
  destruct (Hm s1 s2 Hs) as [Hout Hs'].
  destruct (m1 s1) as [[[]|e1] s1'], (m2 s2) as [[[]|e2] s2'];
    simpl in *; try discriminate; [done|].
  injection Hout as ->. by destruct (h e2).
Qed.

Ltac agree_step :=
  first
    [ apply agree_bind; [|intros ?]
    | apply agree_if
    | apply agree_handler
    | apply agree_report
    | apply agree_console
    | apply agree_invoke
    | apply agree_alerts
    | apply agree_getenv
    | apply agree_raise
    | apply agree_ret ].

Lemma quick_scan_agree h zh url o f1 f2 :
  agree (quick_scan h zh url (with_output_format o f1))
        (quick_scan h zh url (with_output_format o f2)).
Proof.
  unfold quick_scan, Zap.start, Zap.shutdown, Zap.set_enabled_scanners,
    Zap.exclude_from_all, Zap.open_url, Zap.run_spider, Zap.run_ajax_spider,
    Zap.run_active_scan, console.info, sys.exit.
  simpl. repeat agree_step.
Qed.

Lemma show_alerts_agree zh lvl exit_code f1 f2 :
  agree (show_alerts zh lvl f1 exit_code) (show_alerts zh lvl f2 exit_code).
Proof. unfold show_alerts, sys.exit. repeat agree_step. Qed.

(** C8: run from the same process with two output formats, for instance
    table and json, quick-scan ends the same way, so with the same exit
    status, and has handed the same alert sets to the reporter; so does the
    alerts command. *)
Theorem output_format_only_renders (h : handler) zh url o alert_level
    exit_code s f1 f2 :
  ((quick_scan h zh url (with_output_format o f1) s).1
   = (quick_scan h zh url (with_output_format o f2) s).1 ∧
   exit_status (quick_scan h zh url (with_output_format o f1) s).1
   = exit_status (quick_scan h zh url (with_output_format o f2) s).1 ∧
   reported (log (quick_scan h zh url (with_output_format o f1) s).2)
   = reported (log (quick_scan h zh url (with_output_format o f2) s).2)) ∧
  ((show_alerts zh alert_level f1 exit_code s).1
   = (show_alerts zh alert_level f2 exit_code s).1 ∧
   exit_status (show_alerts zh alert_level f1 exit_code s).1
   = exit_status (show_alerts zh alert_level f2 exit_code s).1 ∧
   reported (log (show_alerts zh alert_level f1 exit_code s).2)
   = reported (log (show_alerts zh alert_level f2 exit_code s).2)).
Proof.
  split.
  - destruct (quick_scan_agree h zh url o f1 f2 s s (same_view_refl s))
      as (Hout & _ & _ & Hrep).
    by rewrite Hout, Hrep.
  - destruct (show_alerts_agree zh alert_level exit_code f1 f2 s s
                (same_view_refl s)) as (Hout & _ & _ & Hrep).
    by rewrite Hout, Hrep.
Qed.

(** * More of the command layer *)

(** ** What a command leaves alone *)

Lemma validate_regex_pure compiles value s :
  (helpers.validate_regex compiles value s).2 = s.
Proof.
  unfold helpers.validate_regex.
  destruct value as [pattern|]; [|done]. by case_match.
Qed.

Ltac frame_simple :=
  unfold_phases; simpl; repeat case_match; simplify_eq/=;
  eexists; unfold extend; simpl; rewrite <- ?app_assoc; reflexivity.

Lemma active_scan_extends (h : handler) zh url sc rc cn un sf s :
  ∃ evs, (active_scan h zh url sc rc cn un sf s).2 = extend s evs.
Proof.
  unfold active_scan, Zap.set_enabled_scanners, Zap.run_active_scan.
  frame_simple.
Qed.

Lemma invoke_extends compiles resolve (h : handler) zh c s :
  ∃ evs, (invoke compiles resolve h zh c s).2 = extend s evs.
Proof.
  destruct c as [so| |t|u|u cn un|u|u sc rc cn un sf|lvl fmt ec
                |u sc ex rest|pat|f fmt]; simpl.
  - unfold start_zap_daemon. frame_simple.
  - unfold shutdown_zap_daemon. frame_simple.
  - unfold check_status. frame_simple.
  - unfold open_url, Zap.open_url. frame_simple.
  - unfold spider_url, Zap.run_spider. frame_simple.
  - unfold ajax_spider_url, Zap.run_ajax_spider. frame_simple.
  - unfold mbind at 1. unfold M_bind.
    pose proof (validate_scanner_list_pure resolve sc s) as Hpure.
    destruct (helpers.validate_scanner_list resolve sc s) as [[sc'|e] s1];
      simpl in Hpure; subst s1.
    + apply active_scan_extends.
    + exists []. symmetry. apply extend_nil.
  - unfold show_alerts. frame_simple.
  - unfold mbind at 1. unfold M_bind.
    pose proof (validate_scanner_list_pure resolve sc s) as Hpure.
    destruct (helpers.validate_scanner_list resolve sc s) as [[sc'|e] s1];
      simpl in Hpure; subst s1; [|exists []; symmetry; apply extend_nil].
    unfold mbind at 1. unfold M_bind.
    pose proof (validate_regex_pure compiles ex s) as Hpure.
    destruct (helpers.validate_regex compiles ex s) as [[ex'|e] s1];
      simpl in Hpure; subst s1; [|exists []; symmetry; apply extend_nil].
    destruct (quick_scan h zh u (with_callbacks rest sc' ex') s)
      as [out s'] eqn:Hrun.
    by apply quick_scan_extends in Hrun.
  - unfold mbind at 1. unfold M_bind.
    destruct (compiles pat); simpl; [|exists []; symmetry; apply extend_nil].
    unfold exclude_from_scanners, Zap.exclude_from_all. frame_simple.
  - unfold report, Zap.html_report, Zap.md_report, Zap.xml_report.
    frame_simple.
Qed.

(** X1: a command only adds to the log: whatever the command, its
    arguments, the handler and the daemon, the environment and the console
    settings of the process are what they were before the command ran. *)
Theorem command_frame compiles resolve (h : handler) zh c s :
  environ (invoke compiles resolve h zh c s).2 = environ s ∧
  colorize (invoke compiles resolve h zh c s).2 = colorize s ∧
  level (invoke compiles resolve h zh c s).2 = level s ∧
  log s `prefix_of` log (invoke compiles resolve h zh c s).2.
Proof.
  destruct (invoke_extends compiles resolve h zh c s) as [evs ->].
  repeat split. by exists evs.
Qed.

Lemma main_run compiles resolve (h : handler) zh p c s :
  main compiles resolve h zh p c s
  = invoke compiles resolve h zh c
      (Process (if global_soft_fail p
                then <["SOFT_FAIL" := "true"]> (environ s) else environ s)
         (negb (boring p)) (if verbose p then "DEBUG" else "INFO") (log s)).
Proof. unfold main, mbind, M_bind. by rewrite cli_run. Qed.

(** X2: after [main], the console settings are those of the top-level
    options, and the environment differs from the one before only in
    [SOFT_FAIL]: [cli] sets it to true when the value it is given for the
    top-level soft-fail option is true, and leaves the environment as it
    was when that value is false; no command changes it afterwards, however
    it ends. *)
Theorem main_process_settings compiles resolve (h : handler) zh p c s :
  environ (main compiles resolve h zh p c s).2
  = (if global_soft_fail p
     then <["SOFT_FAIL" := "true"]> (environ s) else environ s) ∧
  colorize (main compiles resolve h zh p c s).2 = negb (boring p) ∧
  level (main compiles resolve h zh p c s).2
  = (if verbose p then "DEBUG" else "INFO").
Proof.
  rewrite main_run. set (s1 := Process _ _ _ _).
  destruct (invoke_extends compiles resolve h zh c s1) as [evs ->].
  by subst s1.
Qed.

(** ** More about a quick scan *)

(** X3: a quick scan never returns to its caller: every run ends in an
    exception, [SystemExit] from [sys.exit] included, so nothing that
    follows the command in the same process is run. *)
Theorem quick_scan_never_returns (h : handler) zh url o s :
  ∃ e, (quick_scan h zh url o s).1 = Raise e.
Proof.
  destruct (quick_scan h zh url o s) as [out s'] eqn:Hrun.
  run_quick_scan Hrun; simpl; eauto.
Qed.

(** X4: a quick scan reports what it collected and nothing else: when its
    [alerts] call returns, that alert set is handed to the reporter, once;
    when the call raises or is never reached, nothing is reported. *)
Theorem quick_scan_reports_collected (h : handler) zh url o s :
  reported (events_since s (quick_scan h zh url o s).2)
  = match collected zh (calls (log s))
            (events_since s (quick_scan h zh url o s).2) with
    | Some al => [al]
    | None => []
    end.
Proof.
  destruct (quick_scan h zh url o s) as [out s'] eqn:Hrun.
  run_quick_scan Hrun.
  all: since_start; read_log.
  all: try rewrite (stage_events_reported _ Hevs).
  all: rewrite ?collected_app by by apply stage_events_no_alerts.
  all: simpl; rewrite ?app_nil_r.
  all: try reflexivity.
  all: rewrite <- ?app_assoc; simpl; try reflexivity.
  all: by rewrite stage_events_collected.
Qed.

Lemma attempted_calls_Forall zh before plan evs out (P : call → Prop) :
  attempted zh before plan evs out → Forall P plan → Forall P (calls evs).
Proof.
  intros [k ->]%attempted_calls_prefix Hplan.
  by apply Forall_app in Hplan as [? _].
Qed.

Lemma stage_plan_configuration url o :
  Forall (λ c, match c with
               | SetEnabledScanners l => scanners o = Some l ∧ l ≠ []
               | ExcludeFromAll p => exclude o = Some p ∧ p ≠ ""
               | _ => True
               end) (stage_plan url o).
Proof.
  unfold stage_plan.
  destruct (scanners o) as [[|x l]|], (exclude o) as [[|a p]|];
    repeat (apply Forall_app; split); simpl; try case_match;
    by repeat constructor.
Qed.

(** X5: a quick scan pushes a scanner selection or an exclusion pattern
    to the daemon only when it was given one that is not empty, and then it
    pushes the one it was given: an empty scanner list or an empty pattern
    is treated as none. *)
Theorem quick_scan_configuration (h : handler) zh url o s :
  Forall (λ c, match c with
               | SetEnabledScanners l => scanners o = Some l ∧ l ≠ []
               | ExcludeFromAll p => exclude o = Some p ∧ p ≠ ""
               | _ => True
               end)
    (calls (events_since s (quick_scan h zh url o s).2)).
Proof.
  destruct (quick_scan h zh url o s) as [out s'] eqn:Hrun.
  run_quick_scan Hrun.
  all: since_start; read_log.
  all: try (by repeat constructor).
  all: pose proof (attempted_calls_Forall _ _ _ _ _ _ Hatt
                     (stage_plan_configuration url o)) as Hcfg.
  all: rewrite ?Forall_cons, ?Forall_app, ?Forall_cons, ?Forall_nil; tauto.
Qed.

(** X6: a quick scan that is not self-contained never starts or stops the
    daemon; one that is starts it before any other call and, if it gets to
    the shutdown, makes it its last call. *)
Theorem quick_scan_daemon_lifecycle (h : handler) zh url o s :
  if self_contained o
  then head (calls (events_since s (quick_scan h zh url o s).2))
       = Some (Start (start_options o)) ∧
       (shutdown_attempts (events_since s (quick_scan h zh url o s).2)
        = 0%nat ∨
        last (calls (events_since s (quick_scan h zh url o s).2))
        = Some Shutdown)
  else (stage_calls (events_since s (quick_scan h zh url o s).2)).*1
       = calls (events_since s (quick_scan h zh url o s).2).
Proof.
  destruct (quick_scan h zh url o s) as [out s'] eqn:Hrun.
  run_quick_scan Hrun.
  all: since_start; read_log.
  all: rewrite ?fmap_app, ?(stage_events_stage_calls _ Hevs),
         ?(stage_events_shutdown _ Hevs); simpl.
  all: try reflexivity.
  all: split; [reflexivity|].
  all: try (by left).
  all: right.
  all: rewrite ?app_comm_cons, ?app_assoc.
  all: try (by rewrite (last_snoc _ Shutdown)).
  all: change ([Alerts (alert_level o); Shutdown])
         with ([Alerts (alert_level o)] ++ [Shutdown]).
  all: by rewrite ?app_comm_cons, ?app_assoc, last_snoc.
Qed.

(** ** Where errors go *)

Lemma failures_app l k : failures (l ++ k) = failures l ++ failures k.
Proof. apply omap_app. Qed.

Lemma no_failure_failures evs : no_failure evs = true → failures evs = [].
Proof.
  induction evs as [|[c [e|]| |] evs IH]; simpl; intros Hok; try done;
    by apply IH.
Qed.

(** An attempted plan has at most one failure, the one it ended with, and
    it is a failure of a call of the plan. *)
Lemma attempted_failures zh before plan evs out :
  attempted zh before plan evs out →
  match out with
  | Return _ => failures evs = []
  | Raise e => ∃ c, c ∈ plan ∧ failures evs = [(c, e)]
  end.
Proof.
  induction 1 as [b|b c plan evs out _ _ IH|b c plan e _]; simpl.
  - done.
  - destruct out as [[]|e]; [done|].
    destruct IH as (c' & Hc' & ->). exists c'. split; [|done].
    by apply list_elem_of_further.
  - exists c. split; [apply list_elem_of_here | done].
Qed.

Lemma stage_plan_no_alerts url o lvl : Alerts lvl ∉ stage_plan url o.
Proof.
  intros Hin. pose proof (stage_plan_stages url o) as Hplan.
  rewrite Forall_forall in Hplan. by apply Hplan in Hin.
Qed.

Ltac failed_call Hin :=
  rewrite ?elem_of_cons, ?elem_of_nil in Hin;
  repeat match type of Hin with
         | _ ∨ _ => destruct Hin as [Hin|Hin]
         end;
  try done; simplify_eq.

Lemma quick_scan_routing (h : handler) zh url o s out s' c e :
  quick_scan h zh url o s = (out, s') →
  (c, e) ∈ failures (events_since s s') →
  match c with
  | Alerts _ => out = Raise e
  | _ => ∀ e', h e = Some e' → out = Raise e'
  end.
Proof.
  intros Hrun. run_quick_scan Hrun.
  all: since_start; rewrite ?failures_app; simpl.
  all: try (apply attempted_failures in Hatt; simpl in Hatt).
  all: try (destruct Hatt as (c0 & Hplan & ->)); try rewrite Hatt; simpl.
  all: intros Hin; failed_call Hin; simpl.
  all: try reflexivity.
  all: try (intros e' He'; congruence).
  all: match goal with |- match ?x with _ => _ end => destruct x end.
  all: try (intros e' He'; congruence).
  all: by apply stage_plan_no_alerts in Hplan.
Qed.

Ltac run_simple Hrun :=
  unfold_phases in Hrun; simpl in Hrun;
  repeat case_match; simplify_eq/=; since_start; simpl;
  let Hin := fresh "Hin" in
  intros Hin; failed_call Hin; try done;
  let e' := fresh "e'" in
  let He' := fresh "He'" in
  intros e' He'; congruence.

Ltac no_events :=
  unfold events_since; rewrite drop_all; by intros ?%elem_of_nil.

Lemma invoke_routing compiles resolve (h : handler) zh c s out s' failed e :
  invoke compiles resolve h zh c s = (out, s') →
  (failed, e) ∈ failures (events_since s s') →
  if routed c failed
  then ∀ e', h e = Some e' → out = Raise e'
  else out = Raise e.
Proof.
  destruct c as [so| |t|u|u cn un|u|u sc rc cn un sf|lvl fmt ec
                |u sc ex rest|pat|f fmt]; simpl; intros Hrun.
  - unfold start_zap_daemon in Hrun. run_simple Hrun.
  - unfold shutdown_zap_daemon in Hrun. run_simple Hrun.
  - unfold check_status in Hrun. run_simple Hrun.
  - unfold open_url, Zap.open_url in Hrun. run_simple Hrun.
  - unfold spider_url, Zap.run_spider in Hrun. run_simple Hrun.
  - unfold ajax_spider_url, Zap.run_ajax_spider in Hrun. run_simple Hrun.
  - unfold mbind at 1 in Hrun. unfold M_bind in Hrun.
    pose proof (validate_scanner_list_pure resolve sc s) as Hpure.
    destruct (helpers.validate_scanner_list resolve sc s) as [[sc'|e0] s1];
      simpl in Hpure; subst s1; [|simplify_eq; no_events].
    unfold active_scan, Zap.set_enabled_scanners, Zap.run_active_scan
      in Hrun.
    run_simple Hrun.
  - unfold show_alerts in Hrun. run_simple Hrun.
  - unfold mbind at 1 in Hrun. unfold M_bind in Hrun.
    pose proof (validate_scanner_list_pure resolve sc s) as Hpure.
    destruct (helpers.validate_scanner_list resolve sc s) as [[sc'|e0] s1];
      simpl in Hpure; subst s1; [|simplify_eq; no_events].
    unfold mbind at 1 in Hrun. unfold M_bind in Hrun.
    pose proof (validate_regex_pure compiles ex s) as Hpure.
    destruct (helpers.validate_regex compiles ex s) as [[ex'|e0] s1];
      simpl in Hpure; subst s1; [|simplify_eq; no_events].
    intros Hin.
    pose proof (quick_scan_routing _ _ _ _ _ _ _ _ _ Hrun Hin) as Hroute.
    by destruct failed.
  - unfold mbind at 1 in Hrun. unfold M_bind in Hrun. simpl in Hrun.
    destruct (compiles pat); simpl in Hrun; [|simplify_eq; no_events].
    unfold exclude_from_scanners, Zap.exclude_from_all in Hrun.
    run_simple Hrun.
  - unfold report, Zap.html_report, Zap.md_report, Zap.xml_report in Hrun.
    run_simple Hrun.
Qed.

(** X7: where the exception of a failed call goes.  In open-url,
    ajax-spider, alerts and report, and for the [alerts] call of a quick
    scan, it leaves the command as it was raised, whatever the handler; in
    every other place the handler decides, and when it lets an exception out
    that exception is how the command ends. *)
Theorem command_error_routing compiles resolve (h : handler) zh c s failed e :
  (failed, e)
    ∈ failures (events_since s (invoke compiles resolve h zh c s).2) →
  if routed c failed
  then ∀ e', h e = Some e' → (invoke compiles resolve h zh c s).1 = Raise e'
  else (invoke compiles resolve h zh c s).1 = Raise e.
Proof.
  destruct (invoke compiles resolve h zh c s) as [out s'] eqn:Hrun.
  exact (invoke_routing compiles resolve h zh c s out s' failed e Hrun).
Qed.

(** ** The value of [SOFT_FAIL] *)

(** X8: what the override reads.  A quick scan without its own soft-fail
    flag, in which no call raises, exits with 1 exactly when it reported
    alerts and [SOFT_FAIL] is unset or empty; any other value of the
    variable, whatever it says, makes it exit with 0. *)
Theorem soft_fail_value (h : handler) zh url o s out s' :
  quick_scan h zh url o s = (out, s') →
  no_failure (events_since s s') = true →
  soft_fail o = false →
  ∃ al, reported (events_since s s') = [al] ∧
    (out = Raise (SystemExit 0) ∨ out = Raise (SystemExit 1)) ∧
    (out = Raise (SystemExit 1) ↔
     al ≠ [] ∧
     (environ s !! "SOFT_FAIL" = None ∨ environ s !! "SOFT_FAIL" = Some "")).
Proof.
  intros Hrun Hok Hflag.
  destruct (quick_scan_completed _ _ _ _ _ _ _ Hrun Hok)
    as (al & _ & Hrep & ->).
  exists al. split; [done|].
  unfold exit_code_policy, soft_fail_override. rewrite Hflag.
  destruct al as [|a al]; simpl.
  { split; [by left|]. split; [done | by intros [[] _]]. }
  destruct (environ s !! "SOFT_FAIL") as [[|c v]|]; simpl.
  - split; [by right|]. split; [|done]. intros _. split; [done | by right].
  - split; [by left|]. split; [done|]. by intros [_ [|]].
  - split; [by right|]. split; [|done]. intros _. split; [done | by left].
Qed.

(** ** The active-scan command *)

Lemma active_scan_follows zh url (sc : option (list string)) rc cn un :
  follows zh
    ((if truthy sc
      then Zap.set_enabled_scanners zh (default [] sc) else mret ());;
     Zap.run_active_scan zh url rc cn un)
    ((if truthy sc then [SetEnabledScanners (default [] sc)] else [])
     ++ [RunActiveScan url rc cn un]).
Proof. apply follows_when, follows_invoke. Qed.

Lemma active_scan_attempted (h : handler) zh url sc rc cn un sf s :
  ∃ evs out,
    attempted zh (calls (log s))
      ((if truthy sc then [SetEnabledScanners (default [] sc)] else [])
       ++ [RunActiveScan url rc cn un]) evs out ∧
    events_since s (active_scan h zh url sc rc cn un sf s).2
    = Console INFO "Running an active scan..." :: evs ∧
    (active_scan h zh url sc rc cn un sf s).1
    = match out with
      | Return _ => Return ()
      | Raise e => match h e with Some e' => Raise e' | None => Return () end
      end.
Proof.
  assert (active_scan h zh url sc rc cn un sf s
          = helpers.zap_error_handler h
              ((if truthy sc
                then Zap.set_enabled_scanners zh (default [] sc)
                else mret ());;
               Zap.run_active_scan zh url rc cn un)
              (extend s [Console INFO "Running an active scan..."])) as ->
    by reflexivity.
  unfold helpers.zap_error_handler.
  match goal with
  | |- context [(?m ≫= ?f) ?st] =>
      destruct ((m ≫= f) st) as [out s'] eqn:Hrun
  end.
  apply active_scan_follows in Hrun as (evs & -> & Hatt). simpl in Hatt.
  rewrite calls_app, app_nil_r in Hatt.
  exists evs, out. split; [done|].
  destruct out as [[]|e]; simpl; try destruct (h e); simpl.
  all: unfold events_since; simpl.
  all: by rewrite <- app_assoc, drop_app_length.
Qed.

(** X9: active-scan configures the scanners, when it was given a
    selection that is not empty, and then starts the scan, in this order;
    when the configuration raises, that call is the only call of the run:
    the scan is not started.  When no call raises the command returns,
    whatever alerts there are: it reports nothing and its soft-fail flag
    changes nothing. *)
Theorem active_scan_run (h : handler) zh url sc rc cn un sf s :
  calls (events_since s (active_scan h zh url sc rc cn un sf s).2)
    `prefix_of`
    (if truthy sc then [SetEnabledScanners (default [] sc)] else [])
    ++ [RunActiveScan url rc cn un] ∧
  (∀ l e,
     (SetEnabledScanners l, e)
       ∈ failures (events_since s (active_scan h zh url sc rc cn un sf s).2) →
     calls (events_since s (active_scan h zh url sc rc cn un sf s).2)
     = [SetEnabledScanners l]) ∧
  reported (events_since s (active_scan h zh url sc rc cn un sf s).2) = [] ∧
  (if no_failure (events_since s (active_scan h zh url sc rc cn un sf s).2)
   then (active_scan h zh url sc rc cn un sf s).1 = Return () ∧
        calls (events_since s (active_scan h zh url sc rc cn un sf s).2)
        = (if truthy sc then [SetEnabledScanners (default [] sc)] else [])
          ++ [RunActiveScan url rc cn un]
   else True) ∧
  active_scan h zh url sc rc cn un sf s
  = active_scan h zh url sc rc cn un (negb sf) s.
Proof.
  destruct (active_scan_attempted h zh url sc rc cn un sf s)
    as (evs & out & Hatt & -> & ->).
  simpl. split; [by eapply attempted_calls_prefix|].
  split; [|split; [|split; [|reflexivity]]].
  - intros l e Hin. clear -Hatt Hin.
    destruct (truthy sc); simpl in Hatt.
    + inversion Hatt as [|b c plan evs' out' Hc Hrest|b c plan e' Hc];
        subst; simpl in Hin.
      * inversion Hrest as [|b c plan evs'' out'' Hc' Hrest'|b c plan e' Hc'];
          subst; simpl in Hin.
        -- inversion Hrest'; subst. simpl in Hin. by failed_call Hin.
        -- by failed_call Hin.
      * by failed_call Hin.
    + inversion Hatt as [|b c plan evs' out' Hc Hrest|b c plan e' Hc];
        subst; simpl in Hin.
      * inversion Hrest; subst. simpl in Hin. by failed_call Hin.
      * by failed_call Hin.
  - clear -Hatt. induction Hatt; simpl; eauto.
  - destruct out as [[]|e].
    + apply attempted_return in Hatt as [-> ->]. done.
    + by rewrite (attempted_raise_failure _ _ _ _ Hatt).
Qed.

Lemma active_scan_run_witness :
  (SetEnabledScanners ["40012"], ZAPError "No such scanner")
    ∈ failures (events_since fresh failed_scanners_run.2) ∧
  calls (events_since fresh failed_scanners_run.2)
  = [SetEnabledScanners ["40012"]].
Proof.
  assert ((SetEnabledScanners ["40012"], ZAPError "No such scanner")
            ∈ failures (events_since fresh failed_scanners_run.2)) as Hin.
  { vm_compute. apply list_elem_of_In. simpl. auto. }
  split; [exact Hin|].
  apply (active_scan_run (exit_on_zap_error 2) scanners_fail example_url
           (Some ["40012"]) false None None false fresh)
    with (e := ZAPError "No such scanner").
  exact Hin.
Defined.

(** ** Waiting for the daemon *)

(** X10: status with a timeout, when the probe answers that the daemon is
    not running, waits for it once, with that timeout, and makes no other
    call.  When the wait returns the command reports that the daemon is
    running, last of all, and returns; when the wait raises the command does
    not report that the daemon is running and the handler decides how it
    ends: the exit with code 2 is not on this path. *)
Theorem check_status_timeout (h : handler) zh t s :
  raises zh (calls (log s)) IsRunning = None →
  running zh (calls (log s)) = false →
  calls (events_since s (check_status h zh (Some t) s).2)
  = [IsRunning; WaitForZap t] ∧
  match raises zh (calls (log s) ++ [IsRunning]) (WaitForZap t) with
  | None =>
      (check_status h zh (Some t) s).1 = Return () ∧
      last (events_since s (check_status h zh (Some t) s).2)
      = Some (Console INFO "ZAP is running")
  | Some e =>
      (check_status h zh (Some t) s).1
      = match h e with Some e' => Raise e' | None => Return () end ∧
      Console INFO "ZAP is running"
        ∉ events_since s (check_status h zh (Some t) s).2
  end.
Proof.
  intros Hprobe Hdown. unfold check_status. unfold_phases. simpl.
  rewrite Hprobe, Hdown. simpl. rewrite calls_app. simpl.
  destruct (raises zh (calls (log s) ++ [IsRunning]) (WaitForZap t))
    as [e|]; simpl; [destruct (h e)|]; simpl.
  all: unfold events_since; simpl; rewrite <- ?app_assoc, !drop_app_length.
  all: split; [reflexivity|]; split; try reflexivity.
  all: intros Hin; rewrite elem_of_app in Hin; by failed_call Hin.
Qed.

(** ** The report command *)

(** X11: report asks the helper for one report, HTML or Markdown when
    that is the format and XML for any other format, and announces the saved
    file only when the helper returned; an exception of the helper leaves
    the command as it was raised. *)
Theorem report_run zh output output_format s :
  ∃ c, (c = HtmlReport output ∧ output_format = "html" ∨
        c = MdReport output ∧ output_format = "md" ∨
        c = XmlReport output ∧ output_format ≠ "html"
          ∧ output_format ≠ "md") ∧
    report zh output output_format s
    = match raises zh (calls (log s)) c with
      | None =>
          (Return (),
           extend s [Remote c None;
                     Console INFO ("Report saved to " +:+ dquote
                                   +:+ default "None" output +:+ dquote)])
      | Some e => (Raise e, extend s [Remote c (Some e)])
      end.
Proof.
  unfold report, Zap.html_report, Zap.md_report, Zap.xml_report.
  destruct (String.eqb output_format "html") eqn:Hhtml;
    [|destruct (String.eqb output_format "md") eqn:Hmd].
  - apply String.eqb_eq in Hhtml. exists (HtmlReport output).
    split; [by left|]. unfold_phases. simpl.
    destruct (raises zh (calls (log s)) _) as [e|]; unfold extend; simpl;
      by rewrite <- ?app_assoc.
  - apply String.eqb_eq in Hmd. exists (MdReport output).
    split; [by right; left|]. unfold_phases. simpl.
    destruct (raises zh (calls (log s)) _) as [e|]; unfold extend; simpl;
      by rewrite <- ?app_assoc.
  - apply String.eqb_neq in Hhtml, Hmd. exists (XmlReport output).
    split; [by right; right|]. unfold_phases. simpl.
    destruct (raises zh (calls (log s)) _) as [e|]; unfold extend; simpl;
      by rewrite <- ?app_assoc.
Qed.

(** ** A quick scan and the single commands *)

Lemma attempted_app_return zh before p1 p2 revs :
  attempted zh before (p1 ++ p2) revs (Return ()) →
  ∃ r1 r2, attempted zh before p1 r1 (Return ()) ∧
           attempted zh (before ++ p1) p2 r2 (Return ()).
Proof.
  revert before revs. induction p1 as [|c p1 IH]; intros before revs; simpl.
  - intros Hatt. exists [], revs. rewrite app_nil_r. split; [constructor|done].
  - inversion 1 as [|b c' plan evs out Hc Hrest|]; subst.
    destruct (IH _ _ Hrest) as (r1 & r2 & H1 & H2).
    exists (Remote c None :: r1), r2. split; [by constructor|].
    by rewrite <- app_assoc in H2.
Qed.

Lemma succeeds_ret zh : succeeds zh (mret ()) [].
Proof. intros s revs _. exists []. by rewrite extend_nil. Qed.

Lemma succeeds_console zh msg : succeeds zh (console.info msg) [].
Proof. intros s revs _. by exists [Console INFO msg]. Qed.

Lemma succeeds_invoke zh c : succeeds zh (Zap.invoke zh c) [c].
Proof.
  intros s revs Hatt. inversion Hatt as [|b c' plan evs out Hc _|]; subst.
  exists [Remote c None]. unfold Zap.invoke. by rewrite Hc.
Qed.

Lemma succeeds_bind zh m1 m2 p1 p2 :
  succeeds zh m1 p1 → succeeds zh m2 p2 → succeeds zh (m1;; m2) (p1 ++ p2).
Proof.
  intros H1 H2 s revs (r1 & r2 & Hr1 & Hr2)%attempted_app_return.
  destruct (H1 s r1 Hr1) as (e1 & Hm1 & Hc1 & Hrep1).
  destruct (H2 (extend s e1) r2) as (e2 & Hm2 & Hc2 & Hrep2).
  { simpl. by rewrite calls_app, Hc1. }
  exists (e1 ++ e2). unfold mbind, M_bind. rewrite Hm1, Hm2.
  rewrite calls_app, reported_app, Hc1, Hc2, Hrep1, Hrep2.
  split; [|done]. unfold extend. simpl. by rewrite app_assoc.
Qed.

Lemma succeeds_handler zh h m p :
  succeeds zh m p → succeeds zh (helpers.zap_error_handler h m) p.
Proof.
  intros Hm s revs Hatt. destruct (Hm s revs Hatt) as (evs & Hrun & ?).
  exists evs. unfold helpers.zap_error_handler. by rewrite Hrun.
Qed.

Lemma succeeds_when zh (b : bool) m p :
  succeeds zh m p →
  succeeds zh (if b then m else mret ()) (if b then p else []).
Proof. destruct b; [done | intros _; apply succeeds_ret]. Qed.

(** The single commands before alerts go through the stages of the quick
    scan. *)
Lemma single_scan_succeeds (h : handler) zh url o :
  truthy (scanners o) = false →
  truthy (exclude o) = false →
  succeeds zh (single_scan h zh url o) (stage_plan url o).
Proof.
  intros Hscan Hex. unfold single_scan, stage_plan. rewrite Hscan, Hex. simpl.
  apply (succeeds_bind _ _ _ [OpenUrl url]).
  { apply (succeeds_bind _ _ _ []);
      [apply succeeds_console | apply succeeds_invoke]. }
  apply succeeds_bind.
  { apply succeeds_when.
    apply (succeeds_bind _ _ _ []); [apply succeeds_console|].
    apply succeeds_handler, succeeds_invoke. }
  apply succeeds_bind.
  { apply succeeds_when.
    apply (succeeds_bind _ _ _ []);
      [apply succeeds_console | apply succeeds_invoke]. }
  unfold active_scan. rewrite Hscan.
  apply (succeeds_bind _ _ _ []); [apply succeeds_console|].
  apply succeeds_handler.
  apply (succeeds_bind _ _ _ []); [apply succeeds_ret | apply succeeds_invoke].
Qed.

(** X12: a quick scan that is not self-contained and has no scanner
    selection and no exclusion does what the single commands do one after
    the other: when no call of the quick scan raises, open-url, spider and
    ajax-spider when asked for, active-scan and alerts make the same calls
    in the same order and report the same alerts, and alerts exits with the
    code the quick scan would exit with if soft-fail were off. *)
Theorem quick_scan_as_single_commands (h : handler) zh url o s out s' :
  self_contained o = false →
  truthy (scanners o) = false →
  truthy (exclude o) = false →
  quick_scan h zh url o s = (out, s') →
  no_failure (events_since s s') = true →
  calls (events_since s (single_commands h zh url o s).2)
  = calls (events_since s s') ∧
  ∃ al, reported (events_since s s') = [al] ∧
    reported (events_since s (single_commands h zh url o s).2) = [al] ∧
    (single_commands h zh url o s).1
    = Raise (SystemExit (exit_code_policy (length al) false false)) ∧
    out = Raise (SystemExit (exit_code_policy (length al) (soft_fail o)
                               (soft_fail_override s))).
Proof.
  intros Hsc Hscan Hex Hrun.
  pose proof (single_scan_succeeds h zh url o Hscan Hex s) as Hsingle.
  run_quick_scan Hrun; try congruence.
  all: since_start; read_log.
  all: try (rewrite (attempted_raise_failure _ _ _ _ Hatt)).
  all: rewrite ?andb_false_r; try discriminate.
  intros _. simpl in Hatt. rewrite calls_app, app_nil_r in Hatt.
  destruct (Hsingle _ Hatt) as (evs1 & Hrun1 & Hcalls1 & Hrep1).
  apply attempted_return in Hatt as [Hcalls _].
  rewrite !calls_app in Hc. simpl in Hc. rewrite app_nil_r, Hcalls in Hc.
  unfold single_commands, mbind, M_bind. rewrite Hrun1.
  unfold show_alerts. unfold_phases. simpl.
  rewrite !calls_app, Hcalls1, Hcalls. simpl. rewrite Hc. simpl.
  unfold events_since. simpl. rewrite <- ?app_assoc, drop_app_length.
  rewrite !calls_app, !reported_app, Hcalls1, Hrep1,
    (stage_events_reported _ Hevs). simpl.
  split; [done|]. eexists.
  split; [reflexivity|]. split; [reflexivity|]. split.
  - rewrite <- exit_code_policy_eq. simpl. by rewrite !andb_true_r.
  - by rewrite <- exit_code_policy_eq.
Qed.

(** ** Witnesses *)

Lemma command_error_routing_witness :
  (RunActiveScan example_url false None None, ZAPError "Active scan failed")
    ∈ failures (events_since fresh failed_scan_command_run.2) ∧
  (if routed self_contained_command
        (RunActiveScan example_url false None None)
   then ∀ e', exit_on_zap_error 2 (ZAPError "Active scan failed") = Some e' →
              failed_scan_command_run.1 = Raise e'
   else failed_scan_command_run.1 = Raise (ZAPError "Active scan failed")).
Proof.
  assert ((RunActiveScan example_url false None None,
           ZAPError "Active scan failed")
            ∈ failures (events_since fresh failed_scan_command_run.2))
    as Hin.
  { vm_compute. apply list_elem_of_In. simpl. auto. }
  split; [exact Hin|].
  apply (command_error_routing sample_compiles sample_resolve
           (exit_on_zap_error 2) scan_fails self_contained_command fresh
           (RunActiveScan example_url false None None)
           (ZAPError "Active scan failed")).
  exact Hin.
Defined.

Lemma soft_fail_value_witness :
  no_failure (events_since soft_fail_false soft_fail_false_run.2) = true ∧
  soft_fail default_options = false ∧
  ∃ al, reported (events_since soft_fail_false soft_fail_false_run.2) = [al] ∧
    (soft_fail_false_run.1 = Raise (SystemExit 0) ∨
     soft_fail_false_run.1 = Raise (SystemExit 1)) ∧
    (soft_fail_false_run.1 = Raise (SystemExit 1) ↔
     al ≠ [] ∧
     (environ soft_fail_false !! "SOFT_FAIL" = None ∨
      environ soft_fail_false !! "SOFT_FAIL" = Some "")).
Proof.
  split; [vm_compute; reflexivity|]. split; [reflexivity|].
  apply (soft_fail_value (exit_on_zap_error 2) one_alert example_url
           default_options soft_fail_false
           soft_fail_false_run.1 soft_fail_false_run.2).
  - vm_compute; reflexivity.
  - vm_compute; reflexivity.
  - reflexivity.
Defined.

Lemma check_status_timeout_witness :
  raises not_running (calls (log fresh)) IsRunning = None ∧
  running not_running (calls (log fresh)) = false ∧
  calls (events_since fresh
           (check_status (exit_on_zap_error 2) not_running (Some 60)
              fresh).2)
  = [IsRunning; WaitForZap 60] ∧
  match raises not_running (calls (log fresh) ++ [IsRunning])
          (WaitForZap 60) with
  | None =>
      (check_status (exit_on_zap_error 2) not_running (Some 60) fresh).1
      = Return () ∧
      last (events_since fresh
              (check_status (exit_on_zap_error 2) not_running (Some 60)
                 fresh).2)
      = Some (Console INFO "ZAP is running")
  | Some e =>
      (check_status (exit_on_zap_error 2) not_running (Some 60) fresh).1
      = match exit_on_zap_error 2 e with
        | Some e' => Raise e'
        | None => Return ()
        end ∧
      Console INFO "ZAP is running"
        ∉ events_since fresh
            (check_status (exit_on_zap_error 2) not_running (Some 60)
               fresh).2
  end.
Proof.
  split; [reflexivity|]. split; [reflexivity|].
  apply (check_status_timeout (exit_on_zap_error 2) not_running 60 fresh);
    reflexivity.
Defined.

Lemma quick_scan_as_single_commands_witness :
  self_contained default_options = false ∧
  truthy (scanners default_options) = false ∧
  truthy (exclude default_options) = false ∧
  no_failure (events_since fresh plain_scan_run.2) = true ∧
  calls (events_since fresh
           (single_commands (exit_on_zap_error 2) one_alert example_url
              default_options fresh).2)
  = calls (events_since fresh plain_scan_run.2) ∧
  ∃ al, reported (events_since fresh plain_scan_run.2) = [al] ∧
    reported (events_since fresh
                (single_commands (exit_on_zap_error 2) one_alert example_url
                   default_options fresh).2) = [al] ∧
    (single_commands (exit_on_zap_error 2) one_alert example_url
       default_options fresh).1
    = Raise (SystemExit (exit_code_policy (length al) false false)) ∧
    plain_scan_run.1
    = Raise (SystemExit (exit_code_policy (length al)
                           (soft_fail default_options)
                           (soft_fail_override fresh))).
Proof.
  split; [reflexivity|]. split; [reflexivity|]. split; [reflexivity|].
  split; [vm_compute; reflexivity|].
  apply (quick_scan_as_single_commands (exit_on_zap_error 2) one_alert
           example_url default_options fresh
           plain_scan_run.1 plain_scan_run.2).
  - reflexivity.
  - reflexivity.
  - reflexivity.
  - vm_compute; reflexivity.
  - vm_compute; reflexivity.
Defined.
